(** * vcloudtools: the record layer (vcloud.py) and the API client (api.py)

    A shallow embedding of the two Python modules.  Python dictionaries are
    stdpp finite maps, [None] is [option]'s [None], exceptions are values of
    [exn] carried by [result], and the remote vCloud endpoint is an abstract
    state [World] stepped by one function, the session's [request]. *)

From Stdlib Require Import Ascii.
From stdpp Require Import gmap strings list fin_maps.

(** ** Exceptions and fallible results *)

Module Response.
(** What the client reads of a [requests.Response]: the status code, the
    response headers (names in lower case, as the case-insensitive
    dictionary of [requests] finds them), and the body.  The body is held as the tree that
    [lxml.etree.fromstring] reads from it; [None] is a body that is not
    well-formed XML.  The tree type is a parameter here because elements
    are declared below. *)
Record t (E : Type) := mk {
  status_code : Z;
  headers : gmap string string;
  content : option E
}.
Arguments mk {E}.
Arguments status_code {E}.
Arguments headers {E}.
Arguments content {E}.
End Response.

(** An [lxml] element: its qualified tag [{namespace}Local], its attribute
    dictionary, its leading text ([None] when there is none) and its child
    elements in document order.  Comments and processing instructions are
    not part of the model. *)
#[warnings="-register-all"] Inductive Element :=
  Elem (tag : string) (attrib : gmap string string)
       (text : option string) (children : list Element).

Definition tag (el : Element) : string :=
  match el with Elem t _ _ _ => t end.
Definition attrib (el : Element) : gmap string string :=
  match el with Elem _ a _ _ => a end.
Definition text (el : Element) : option string :=
  match el with Elem _ _ t _ => t end.
Definition children (el : Element) : list Element :=
  match el with Elem _ _ _ cs => cs end.

(** The exceptions of [requests] that reach the client.  [HTTPError] is the
    one [raise_for_status] raises and it carries the response; the others
    are raised while the request is being sent. *)
Inductive RequestException :=
| HTTPError (response : Response.t Element)
| ConnectionError
| ReadTimeout
| TooManyRedirects.

(** [APIError] is raised with a message in [_lookup] and with the caught
    [requests] exception in [_custom_raise_for_status]. *)
Inductive APIError_arg :=
| Message (msg : string)
| Caught (err : RequestException).

Inductive exn :=
| ClientError (msg : string)
| APIError (arg : APIError_arg)
| Requests (err : RequestException)
| KeyError (key : string)
| AttributeError (msg : string)
| TypeError (msg : string)
| IndexError (msg : string)
| XMLSyntaxError.

(** The name of the class of an exception, as [type(e).__name__] gives it. *)
Definition class_name (e : exn) : string :=
  match e with
  | ClientError _ => "ClientError"
  | APIError _ => "APIError"
  | Requests (HTTPError _) => "HTTPError"
  | Requests ConnectionError => "ConnectionError"
  | Requests ReadTimeout => "ReadTimeout"
  | Requests TooManyRedirects => "TooManyRedirects"
  | KeyError _ => "KeyError"
  | AttributeError _ => "AttributeError"
  | TypeError _ => "TypeError"
  | IndexError _ => "IndexError"
  | XMLSyntaxError => "XMLSyntaxError"
  end.

Inductive result (A : Type) :=
| Ok (a : A)
| Raise (e : exn).
Arguments Ok {A} a.
Arguments Raise {A} e.

#[global] Instance result_ret : MRet result := fun A a => Ok a.
#[global] Instance result_bind : MBind result :=
  fun A B f m => match m with Ok a => f a | Raise e => Raise e end.
#[global] Instance result_fmap : FMap result :=
  fun A B f m => match m with Ok a => Ok (f a) | Raise e => Raise e end.

Definition is_Ok {A} (r : result A) : Prop := exists a, r = Ok a.

(** [None.attr]: attribute access on Python's [None]. *)
Definition NoneType_has_no (attr : string) : exn :=
  AttributeError ("'NoneType' object has no attribute '" +:+ attr +:+ "'").

(** ** vcloud.py: the records *)

Module Link.
(** [Link(type, href, rel, name=None)] *)
Record t := mk {
  type : string;
  href : string;
  rel : string;
  name : option string
}.
End Link.

Module ResourceEntity.
(** [ResourceEntity(type, href, name=None)] *)
Record t := mk {
  type : string;
  href : string;
  name : option string
}.
End ResourceEntity.

(** The value of a [links] field.  The decoders store a
    [defaultdict(list)]; the constructor's default is [None]; and the
    summary decoders pass the XML attributes as keyword arguments, so an
    attribute called [links] puts its text there. *)
Inductive links_field :=
| LinksNone
| LinksText (s : string)
| LinksIndex (d : gmap string (list Link.t)).

(** The value of an [ExtNet]'s [config] field: [None], the text of an
    attribute called [config] (summary decoder), or the [Configuration]
    element itself (full decoder). *)
Inductive config_field :=
| ConfigNone
| ConfigText (s : string)
| ConfigElement (el : Element).

Module Org.
(** [Org(type, href, name, id=None, full_name=None, description=None,
    links=None)] *)
Record t := mk {
  type : string;
  href : string;
  name : string;
  id : option string;
  full_name : option string;
  description : option string;
  links : links_field
}.
End Org.

Module OrgVdc.
(** [OrgVdc(type, href, name, id=None, storage=None, compute=None,
    links=None, entities=None)] *)
Record t := mk {
  type : string;
  href : string;
  name : string;
  id : option string;
  storage : option (gmap string (option string));
  compute : option (gmap string (gmap string (option string)));
  links : links_field;
  entities : option (gmap string (list ResourceEntity.t))
}.
End OrgVdc.

Module ExtNet.
(** [ExtNet(type, href, name, config=None, id=None, description=None,
    links=None)] *)
Record t := mk {
  type : string;
  href : string;
  name : string;
  config : config_field;
  id : option string;
  description : option string;
  links : links_field
}.
End ExtNet.

Module IpRange.
(** [IpRange(first, last)]; either bound is the text of an element and so
    may be [None]. *)
Record t := mk {
  first : option string;
  last : option string
}.
End IpRange.

Module OrgNet.
(** [OrgNet(name, gateway, netmask, dns, ranges)] *)
Record t := mk {
  name : string;
  gateway : option string;
  netmask : option string;
  dns : option string;
  ranges : list IpRange.t
}.
End OrgNet.

Module OrgList.
Record t := mk { orgs : list Org.t }.

(** [for o in self.orgs: if o.name == name: return o] and then
    [return None]. *)
Fixpoint org_by_name_loop (os : list Org.t) (name : string) : option Org.t :=
  match os with
  | [] => None
  | o :: os' =>
      if String.eqb (Org.name o) name then Some o
      else org_by_name_loop os' name
  end.

Definition org_by_name (self : t) (name : string) : option Org.t :=
  org_by_name_loop (orgs self) name.
End OrgList.

Module ExtNetList.
Record t := mk { ext_nets : list ExtNet.t }.

Fixpoint ext_net_by_name_loop (ens : list ExtNet.t) (name : string)
  : option ExtNet.t :=
  match ens with
  | [] => None
  | en :: ens' =>
      if String.eqb (ExtNet.name en) name then Some en
      else ext_net_by_name_loop ens' name
  end.

Definition ext_net_by_name (self : t) (name : string) : option ExtNet.t :=
  ext_net_by_name_loop (ext_nets self) name.
End ExtNetList.

(** ** api.py: constants *)

Definition VCLOUD_AUTH_HEADER : string := "x-vcloud-authorization".
Definition VCLOUD_VERSION : string := "1.5".
Definition VCLOUD_MIME : string :=
  "application/*+xml;version=" +:+ VCLOUD_VERSION.
(** [VCLOUD_NS['vcloud']] *)
Definition VCLOUD_NS : string :=
  "http://www.vmware.com/vcloud/v" +:+ VCLOUD_VERSION.

(** ** lxml: [find] and [findall] with a [vcloud:]-prefixed path

    [el.findall('vcloud:X', VCLOUD_NS)] lists the children of [el] whose
    tag is [{VCLOUD_NS}X], in document order; [el.find] gives the first of
    them or [None]. *)

Definition qname (local : string) : string :=
  "{" +:+ VCLOUD_NS +:+ "}" +:+ local.

Definition findall (el : Element) (local : string) : list Element :=
  filter (fun c => tag c = qname local) (children el).

Definition find (el : Element) (local : string) : option Element :=
  head (findall el local).

(** [el.attrib[key]] *)
Definition attrib_getitem (el : Element) (key : string) : result string :=
  match attrib el !! key with
  | Some v => Ok v
  | None => Raise (KeyError key)
  end.

(** [x.find(...)] where [x] is the result of an earlier [find]. *)
Definition find_in (x : option Element) (local : string)
  : result (option Element) :=
  match x with
  | Some el => Ok (find el local)
  | None => Raise (NoneType_has_no "find")
  end.

(** [x.text] where [x] is the result of a [find]. *)
Definition text_of (x : option Element) : result (option string) :=
  match x with
  | Some el => Ok (text el)
  | None => Raise (NoneType_has_no "text")
  end.

(** ** [defaultdict(list)]

    [d[k]] on a missing key stores an empty list under [k] and returns it;
    the dictionary after the access is the second component. *)

Definition defaultdict_getitem {A} (d : gmap string (list A)) (k : string)
  : list A * gmap string (list A) :=
  match d !! k with
  | Some v => (v, d)
  | None => ([], <[k := []]> d)
  end.

(** [d[k].append(x)] *)
Definition defaultdict_append {A} (d : gmap string (list A)) (k : string)
  (x : A) : gmap string (list A) :=
  let '(v, d') := defaultdict_getitem d k in <[k := v ++ [x]]> d'.

(** ** Keyword-argument constructors

    A constructor called with [el.attrib] unpacked as its keyword
    arguments: every attribute must be the name of a parameter and
    every parameter without a default must be given; otherwise the call is
    a [TypeError]. *)

Definition kwargs_ok (params : list string) (kw : gmap string string) : bool :=
  bool_decide (dom kw ⊆ (list_to_set params : gset string)).

Definition bad_call (cls : string) : exn :=
  TypeError ("__new__() of " +:+ cls +:+ ": bad keyword arguments").

Definition _parse_link (el : Element) : result Link.t :=
  let kw := attrib el in
  if kwargs_ok ["type"; "href"; "rel"; "name"] kw then
    match kw !! "type", kw !! "href", kw !! "rel" with
    | Some t, Some h, Some r => Ok (Link.mk t h r (kw !! "name"))
    | _, _, _ => Raise (bad_call "Link")
    end
  else Raise (bad_call "Link").

Definition _parse_resource_entity (el : Element) : result ResourceEntity.t :=
  let kw := attrib el in
  if kwargs_ok ["type"; "href"; "name"] kw then
    match kw !! "type", kw !! "href" with
    | Some t, Some h => Ok (ResourceEntity.mk t h (kw !! "name"))
    | _, _ => Raise (bad_call "ResourceEntity")
    end
  else Raise (bad_call "ResourceEntity").

Definition links_of_kwarg (v : option string) : links_field :=
  match v with
  | Some s => LinksText s
  | None => LinksNone
  end.

Definition config_of_kwarg (v : option string) : config_field :=
  match v with
  | Some s => ConfigText s
  | None => ConfigNone
  end.

Definition _parse_org_short (el : Element) : result Org.t :=
  let kw := attrib el in
  if kwargs_ok ["type"; "href"; "name"; "id"; "full_name"; "description";
                "links"] kw then
    match kw !! "type", kw !! "href", kw !! "name" with
    | Some t, Some h, Some n =>
        Ok (Org.mk t h n (kw !! "id") (kw !! "full_name")
              (kw !! "description") (links_of_kwarg (kw !! "links")))
    | _, _, _ => Raise (bad_call "Org")
    end
  else Raise (bad_call "Org").

Definition _parse_ext_net_short (el : Element) : result ExtNet.t :=
  let kw := attrib el in
  if kwargs_ok ["type"; "href"; "name"; "config"; "id"; "description";
                "links"] kw then
    match kw !! "type", kw !! "href", kw !! "name" with
    | Some t, Some h, Some n =>
        Ok (ExtNet.mk t h n (config_of_kwarg (kw !! "config")) (kw !! "id")
              (kw !! "description") (links_of_kwarg (kw !! "links")))
    | _, _, _ => Raise (bad_call "ExtNet")
    end
  else Raise (bad_call "ExtNet").

(** ** Link and entity indices *)

(** The loop of [_parse_links]: [link = _parse_link(c)] and then
    [res[link.type].append(link)], for each child in turn. *)
Fixpoint _parse_links_loop (cs : list Element) (res : gmap string (list Link.t))
  : result (gmap string (list Link.t)) :=
  match cs with
  | [] => Ok res
  | c :: cs' =>
      link ← _parse_link c;
      _parse_links_loop cs' (defaultdict_append res (Link.type link) link)
  end.

Definition _parse_links (el : Element) : result (gmap string (list Link.t)) :=
  _parse_links_loop (findall el "Link") ∅.

Fixpoint _parse_resource_entities_loop (cs : list Element)
  (res : gmap string (list ResourceEntity.t))
  : result (gmap string (list ResourceEntity.t)) :=
  match cs with
  | [] => Ok res
  | c :: cs' =>
      re ← _parse_resource_entity c;
      _parse_resource_entities_loop cs'
        (defaultdict_append res (ResourceEntity.type re) re)
  end.

(** [el = el.find('vcloud:ResourceEntities', VCLOUD_NS)] first; without
    that child the [findall] is called on [None]. *)
Definition _parse_resource_entities (el : Element)
  : result (gmap string (list ResourceEntity.t)) :=
  match find el "ResourceEntities" with
  | Some el' =>
      _parse_resource_entities_loop (findall el' "ResourceEntity") ∅
  | None => Raise (NoneType_has_no "findall")
  end.

(** ** The list decoders *)

(** A list comprehension [[f(c) for c in cs]]: the first exception ends it. *)
Fixpoint comprehension {A B} (f : A -> result B) (cs : list A)
  : result (list B) :=
  match cs with
  | [] => Ok []
  | c :: cs' => x ← f c; xs ← comprehension f cs'; mret (x :: xs)
  end.

Definition _parse_org_list (el : Element) : result OrgList.t :=
  orgs ← comprehension _parse_org_short (findall el "Org");
  mret (OrgList.mk orgs).

Definition _parse_ext_net_list (el : Element) : result ExtNetList.t :=
  match find el "Networks" with
  | Some nets =>
      ext_nets ← comprehension _parse_ext_net_short (findall nets "Network");
      mret (ExtNetList.mk ext_nets)
  | None => Raise (NoneType_has_no "findall")
  end.

(** ** The full decoders *)

Definition _parse_org (el : Element) : result Org.t :=
  type_ ← attrib_getitem el "type";
  href ← attrib_getitem el "href";
  name ← attrib_getitem el "name";
  id_ ← attrib_getitem el "id";
  full_name ← text_of (find el "FullName");
  description ← text_of (find el "Description");
  links ← _parse_links el;
  mret (Org.mk type_ href name (Some id_) full_name description
          (LinksIndex links)).

Definition config_of_find (x : option Element) : config_field :=
  match x with
  | Some c => ConfigElement c
  | None => ConfigNone
  end.

Definition _parse_ext_net (el : Element) : result ExtNet.t :=
  type_ ← attrib_getitem el "type";
  href ← attrib_getitem el "href";
  name ← attrib_getitem el "name";
  id_ ← attrib_getitem el "id";
  description ← text_of (find el "Description");
  let config := find el "Configuration" in
  links ← _parse_links el;
  mret (ExtNet.mk type_ href name (config_of_find config) (Some id_)
          description (LinksIndex links)).

(** ** String helpers *)

(** [s.split(sep)] for a one-character separator. *)
Fixpoint split (sep : Ascii.ascii) (s : string) : list string :=
  match s with
  | EmptyString => [EmptyString]
  | String a s' =>
      if Ascii.eqb a sep then EmptyString :: split sep s'
      else match split sep s' with
           | p :: ps => String a p :: ps
           | [] => [String a EmptyString]
           end
  end.

(** [s.upper()] on ASCII text. *)
Definition ascii_upper (c : Ascii.ascii) : Ascii.ascii :=
  let n := Ascii.N_of_ascii c in
  if ((97 <=? n)%N && (n <=? 122)%N)%bool then Ascii.ascii_of_N (n - 32)
  else c.

Fixpoint upper (s : string) : string :=
  match s with
  | EmptyString => EmptyString
  | String a s' => String (ascii_upper a) (upper s')
  end.

(** [a + b] where [a] is a [str] and [b] is the text of an element. *)
Definition str_add (a : string) (b : option string) : result string :=
  match b with
  | Some s => Ok (a +:+ s)
  | None => Raise (TypeError "cannot concatenate 'str' and 'NoneType'")
  end.

(** ** The environment *)

Definition envkey (key : string) : string := "VCLOUD_" +:+ upper key.

(** [envget(key)] with the default [None]. *)
Definition envget (env : gmap string string) (key : string) : option string :=
  env !! envkey key.

(** ** The remaining decoders *)

(** [k.tag.split('}')[1]] *)
Definition local_name (k : Element) : result string :=
  match split "}"%char (tag k) !! 1%nat with
  | Some s => Ok s
  | None => Raise (IndexError "list index out of range")
  end.

(** [for k in x] where [x] is the result of a [find]. *)
Definition iter (x : option Element) : result (list Element) :=
  match x with
  | Some el => Ok (children el)
  | None => Raise (TypeError "'NoneType' object is not iterable")
  end.

(** [for k in ...: s_cap[k.tag.split('}')[1]] = k.text] *)
Fixpoint storage_loop (ks : list Element) (s_cap : gmap string (option string))
  : result (gmap string (option string)) :=
  match ks with
  | [] => Ok s_cap
  | k :: ks' =>
      key ← local_name k;
      storage_loop ks' (<[key := text k]> s_cap)
  end.

(** [c_cap[outer][key] = v] *)
Definition nested_setitem (c_cap : gmap string (gmap string (option string)))
  (outer key : string) (v : option string)
  : result (gmap string (gmap string (option string))) :=
  match c_cap !! outer with
  | Some inner => Ok (<[outer := <[key := v]> inner]> c_cap)
  | None => Raise (KeyError outer)
  end.

(** [for k in ...: c_cap[outer][k.tag.split('}')[1]] = k.text] *)
Fixpoint compute_loop (outer : string) (ks : list Element)
  (c_cap : gmap string (gmap string (option string)))
  : result (gmap string (gmap string (option string))) :=
  match ks with
  | [] => Ok c_cap
  | k :: ks' =>
      key ← local_name k;
      c_cap' ← nested_setitem c_cap outer key (text k);
      compute_loop outer ks' c_cap'
  end.

Definition _parse_org_vdcs (el : Element) : result OrgVdc.t :=
  type_ ← attrib_getitem el "type";
  href ← attrib_getitem el "href";
  name ← attrib_getitem el "name";
  id_ ← attrib_getitem el "id";
  let raw_storage_capacity := find el "StorageCapacity" in
  ks ← iter raw_storage_capacity;
  s_cap ← storage_loop ks ∅;
  let raw_compute_capacity := find el "ComputeCapacity" in
  let c_cap : gmap string (gmap string (option string)) :=
    {[ "cpu" := ∅; "memory" := ∅ ]} in
  raw_cpu ← find_in raw_compute_capacity "Cpu";
  ks ← iter raw_cpu;
  c_cap ← compute_loop "cpu" ks c_cap;
  raw_memory ← find_in raw_compute_capacity "Memory";
  ks ← iter raw_memory;
  c_cap ← compute_loop "memory" ks c_cap;
  links ← _parse_links el;
  r_entities ← _parse_resource_entities el;
  mret (OrgVdc.mk type_ href name (Some id_) (Some s_cap) (Some c_cap)
          (LinksIndex links) (Some r_entities)).

(** The loop of [_parse_ip_ranges].  The label [name] is built and dropped,
    but building it concatenates the two texts, which raises when either
    is [None]. *)
Fixpoint _parse_ip_ranges_loop (net_name : string) (raw_ranges : list Element)
  (ranges : list IpRange.t) : result (list IpRange.t) :=
  match raw_ranges with
  | [] => Ok ranges
  | r :: rs =>
      first ← text_of (find r "StartAddress");
      last ← text_of (find r "EndAddress");
      s ← str_add (net_name +:+ " - (") first;
      s ← str_add (s +:+ "-") last;
      let name := s +:+ ")" in
      _parse_ip_ranges_loop net_name rs (ranges ++ [IpRange.mk first last])
  end.

Definition _parse_ip_ranges (net_name : string) (el : option Element)
  : result (list IpRange.t) :=
  match el with
  | Some el => _parse_ip_ranges_loop net_name (findall el "IpRange") []
  | None => Raise (NoneType_has_no "findall")
  end.

Definition _parse_org_nets (el : Element) : result OrgNet.t :=
  let configuration := find el "Configuration" in
  ipscope ← find_in configuration "IpScope";
  gateway ← (x ← find_in ipscope "Gateway"; text_of x);
  netmask ← (x ← find_in ipscope "Netmask"; text_of x);
  dns ← (x ← find_in ipscope "DnsSuffix"; text_of x);
  net_name ← attrib_getitem el "name";
  ipranges ← find_in ipscope "IpRanges";
  ranges ← _parse_ip_ranges net_name ipranges;
  name ← attrib_getitem el "name";
  mret (OrgNet.mk name gateway netmask dns ranges).

(** ** requests *)

Module Request.
(** What [Session.request] is called with: the method, the URL, the
    session's headers (a value may be [None]) and the [auth] pair. *)
Record t := mk {
  method : string;
  url : string;
  headers : gmap string (option string);
  auth : option (string * string)
}.
End Request.

(** What one call of [Session.request] does: it returns a response or it
    raises an exception of [requests]. *)
Inductive sent :=
| Responded (res : Response.t Element)
| Failed (err : RequestException).

(** [Response.raise_for_status]: an [HTTPError] carrying the response for
    a status from 400 to 599, nothing otherwise. *)
Definition raise_for_status (res : Response.t Element) : result unit :=
  let s := Response.status_code res in
  if ((400 <=? s)%Z && (s <? 600)%Z)%bool then Raise (Requests (HTTPError res))
  else Ok tt.

(** [Response.ok]: whether [raise_for_status] returns. *)
Definition ok (res : Response.t Element) : bool :=
  match raise_for_status res with
  | Ok _ => true
  | Raise _ => false
  end.

(** The [try] catches [requests.RequestException] only. *)
Definition _custom_raise_for_status (res : Response.t Element) : result unit :=
  match raise_for_status res with
  | Raise (Requests err) => Raise (APIError (Caught err))
  | r => r
  end.

(** [lxml.etree.fromstring(res.content)] *)
Definition fromstring (content : option Element) : result Element :=
  match content with
  | Some el => Ok el
  | None => Raise XMLSyntaxError
  end.

(** ** Computations that talk to the server *)

Definition M (W A : Type) : Type := W -> W * result A.

#[global] Instance M_ret W : MRet (M W) := fun A a w => (w, Ok a).
#[global] Instance M_bind W : MBind (M W) :=
  fun A B f m w =>
    match m w with
    | (w', Ok a) => f a w'
    | (w', Raise e) => (w', Raise e)
    end.

(** A step that does not talk to the server. *)
Definition pure {W A} (r : result A) : M W A := fun w => (w, r).

(** ** The client *)

(** The attributes of a [VCloudAPIClient]: the headers of its session, the
    token, the API root and the link index of the session document ([None]
    until one has been fetched). *)
Record VCloudAPIClient := mkClient {
  session_headers : gmap string (option string);
  _token : option string;
  root : string;
  _links : option (gmap string (list Link.t))
}.

(** The [token] property: the getter ... *)
Definition token (self : VCloudAPIClient) : option string := _token self.

(** ... and the setter: [self._token = tok] and then
    [self._session.headers[VCLOUD_AUTH_HEADER] = self._token]. *)
Definition set_token (self : VCloudAPIClient) (tok : option string)
  : VCloudAPIClient :=
  let self := mkClient (session_headers self) tok (root self) (_links self) in
  mkClient (<[VCLOUD_AUTH_HEADER := _token self]> (session_headers self))
    (_token self) (root self) (_links self).

(** [self._links = links] *)
Definition set_links (self : VCloudAPIClient)
  (links : option (gmap string (list Link.t))) : VCloudAPIClient :=
  mkClient (session_headers self) (_token self) (root self) links.

Definition _url (self : VCloudAPIClient) (path : string) : string :=
  root self +:+ path.

Definition full_typ (typ : string) : string :=
  "application/vnd.vmware." +:+ typ +:+ "+xml".

Definition _lookup (self : VCloudAPIClient) (typ : string) : result string :=
  match _links self with
  | None => Raise (TypeError "argument of type 'NoneType' is not iterable")
  | Some links =>
      match links !! full_typ typ with
      | Some ls =>
          match ls with
          | l :: _ => Ok (Link.href l)
          | [] => Raise (IndexError "list index out of range")
          end
      | None =>
          Raise (APIError
                   (Message ("Don't know anything about type '" +:+ typ +:+ "'")))
      end
  end.

(** [org.links[key]]: the list under [key] and the record afterwards.  Only
    a [defaultdict] can be indexed by a media type. *)
Definition org_links_getitem (org : Org.t) (key : string)
  : Org.t * result (list Link.t) :=
  match Org.links org with
  | LinksIndex d =>
      let '(ls, d') := defaultdict_getitem d key in
      (Org.mk (Org.type org) (Org.href org) (Org.name org) (Org.id org)
         (Org.full_name org) (Org.description org) (LinksIndex d'),
       Ok ls)
  | LinksText _ =>
      (org, Raise (TypeError "string indices must be integers"))
  | LinksNone =>
      (org, Raise (TypeError "'NoneType' object is not subscriptable"))
  end.

(** [ovdc.entities[key]]; the datacenter record is local to [org_vapps], so
    only the list is kept. *)
Definition ovdc_entities_getitem (ovdc : OrgVdc.t) (key : string)
  : result (list ResourceEntity.t) :=
  match OrgVdc.entities ovdc with
  | Some d => Ok (fst (defaultdict_getitem d key))
  | None => Raise (TypeError "'NoneType' object is not subscriptable")
  end.

(** The loop of [org_vapps]: [r_entities += ovdc.entities[...]]. *)
Fixpoint org_vapps_loop (ovdcs : list OrgVdc.t)
  (r_entities : list ResourceEntity.t) : result (list ResourceEntity.t) :=
  match ovdcs with
  | [] => Ok r_entities
  | ovdc :: ovdcs' =>
      es ← ovdc_entities_getitem ovdc "application/vnd.vmware.vcloud.vApp+xml";
      org_vapps_loop ovdcs' (r_entities ++ es)
  end.

(** [ip_ranges(el)] *)
Definition ip_ranges (el : Element) : result (list Element) :=
  let config := find el "Configuration" in
  scope ← find_in config "IpScope";
  iprange ← find_in scope "IpRanges";
  match iprange with
  | Some x => Ok (findall x "IpRange")
  | None => Raise (NoneType_has_no "findall")
  end.

Section Client.

Context {World : Type}.

(** [self._session.request]: one exchange with the server. *)
Variable request : World -> Request.t -> World * sent.

(** [_req(method, url, _raise=True, auth=...)]: the request is sent outside
    any [try]; the status is looked at only when [_raise] is set. *)
Definition _req (self : VCloudAPIClient) (method url : string) (_raise : bool)
  (auth : option (string * string)) : M World (Response.t Element) :=
  fun w =>
    match request w (Request.mk method url (session_headers self) auth) with
    | (w', Failed err) => (w', Raise (Requests err))
    | (w', Responded res) =>
        (w', if _raise then _ ← _custom_raise_for_status res; Ok res
             else Ok res)
    end.

(** The GET, parse and decode that every accessor ends with. *)
Definition get_and_parse {A} (self : VCloudAPIClient) (url : string)
  (decode : Element -> result A) : M World A :=
  res ← _req self "get" url true None;
  etree ← pure (fromstring (Response.content res));
  pure (decode etree).

Definition _fetch_initial_links (self : VCloudAPIClient)
  : M World (gmap string (list Link.t)) :=
  get_and_parse self (_url self "/session") _parse_links.

(** [logged_in]: the one request made with [_raise=False]. *)
Definition logged_in (self : VCloudAPIClient) : M World bool :=
  res ← _req self "get" (_url self "/session") false None;
  mret (ok res).

(** [__init__(root)] in the environment [env].  The token is assigned
    before the root is known. *)
Definition __init__ (env : gmap string string) (root : option string)
  : M World VCloudAPIClient :=
  let headers : gmap string (option string) :=
    {[ "accept" := Some VCLOUD_MIME ]} in
  let tok := envget env "auth_token" in
  let headers := <[VCLOUD_AUTH_HEADER := tok]> headers in
  root ← pure
    match root with
    | Some r => Ok r
    | None =>
        match envget env "api_root" with
        | Some r => Ok r
        | None =>
            Raise (ClientError
                     ("No known API root for vCloud. Perhaps you need to set $"
                        +:+ envkey "api_root" +:+ "?"))
        end
    end;
  let self := mkClient headers tok root None in
  b ← logged_in self;
  if b : bool then
    links ← _fetch_initial_links self;
    mret (set_links self (Some links))
  else mret self.

(** [login(username, password)]: the client after the call comes with the
    result, because the token stays assigned when the fetch of the session
    document fails. *)
Definition login (self : VCloudAPIClient) (username password : string)
  (w : World) : World * VCloudAPIClient * result unit :=
  match _req self "post" (_url self "/sessions") true
          (Some (username, password)) w with
  | (w1, Raise e) => (w1, self, Raise e)
  | (w1, Ok res) =>
      match Response.headers res !! VCLOUD_AUTH_HEADER with
      | None => (w1, self, Raise (KeyError VCLOUD_AUTH_HEADER))
      | Some tok =>
          let self := set_token self (Some tok) in
          match _fetch_initial_links self w1 with
          | (w2, Raise e) => (w2, self, Raise e)
          | (w2, Ok links) => (w2, set_links self (Some links), Ok tt)
          end
      end
  end.

Definition browse (self : VCloudAPIClient) (path : string)
  : M World (Response.t Element) :=
  _req self "get" (_url self path) true None.

Definition ext_net_list (self : VCloudAPIClient) : M World ExtNetList.t :=
  url ← pure (_lookup self "admin.vcloud");
  get_and_parse self url _parse_ext_net_list.

Definition org_list (self : VCloudAPIClient) : M World OrgList.t :=
  url ← pure (_lookup self "vcloud.orgList");
  get_and_parse self url _parse_org_list.

(** [org(name)]: [org_short.href] is read whatever [org_by_name] returned. *)
Definition org (self : VCloudAPIClient) (name : string) : M World Org.t :=
  ol ← org_list self;
  let org_short := OrgList.org_by_name ol name in
  href ← pure
    match org_short with
    | Some o => Ok (Org.href o)
    | None => Raise (NoneType_has_no "href")
    end;
  get_and_parse self href _parse_org.

Definition ext_net (self : VCloudAPIClient) (name : string)
  : M World ExtNet.t :=
  enl ← ext_net_list self;
  let ext_net_short := ExtNetList.ext_net_by_name enl name in
  href ← pure
    match ext_net_short with
    | Some en => Ok (ExtNet.href en)
    | None => Raise (NoneType_has_no "href")
    end;
  get_and_parse self href _parse_ext_net.

(** The loop shared by [org_nets] and [org_vdcs]: one GET and one decode
    per link, each record appended to the list built so far. *)
Fixpoint links_loop {A} (self : VCloudAPIClient)
  (decode : Element -> result A) (ls : list Link.t) (acc : list A)
  : M World (list A) :=
  match ls with
  | [] => mret acc
  | l :: ls' =>
      x ← get_and_parse self (Link.href l) decode;
      links_loop self decode ls' (acc ++ [x])
  end.

(** [org_nets(org)]: the record after the call, and the networks. *)
Definition org_nets (self : VCloudAPIClient) (org : Org.t) (w : World)
  : World * Org.t * result (list OrgNet.t) :=
  match org_links_getitem org "application/vnd.vmware.vcloud.orgNetwork+xml" with
  | (org', Raise e) => (w, org', Raise e)
  | (org', Ok ls) =>
      let '(w', r) := links_loop self _parse_org_nets ls [] w in (w', org', r)
  end.

Definition org_vdcs (self : VCloudAPIClient) (org : Org.t) (w : World)
  : World * Org.t * result (list OrgVdc.t) :=
  match org_links_getitem org "application/vnd.vmware.vcloud.vdc+xml" with
  | (org', Raise e) => (w, org', Raise e)
  | (org', Ok ls) =>
      let '(w', r) := links_loop self _parse_org_vdcs ls [] w in (w', org', r)
  end.

Definition org_vapps (self : VCloudAPIClient) (org : Org.t) (w : World)
  : World * Org.t * result (list ResourceEntity.t) :=
  match org_vdcs self org w with
  | (w', org', Raise e) => (w', org', Raise e)
  | (w', org', Ok ovdcs) => (w', org', org_vapps_loop ovdcs [])
  end.

(** [fetched decode self w ls w' xs]: starting in [w], a GET of each link
    of [ls] in turn, followed by the parse and the decode of its response,
    succeeds, yields the records [xs] in the order of the links and leaves
    the server in [w']. *)
Inductive fetched {A} (decode : Element -> result A) (self : VCloudAPIClient)
  : World -> list Link.t -> World -> list A -> Prop :=
| fetched_nil w : fetched decode self w [] w []
| fetched_cons w w1 w2 l ls x xs :
    get_and_parse self (Link.href l) decode w = (w1, Ok x) ->
    fetched decode self w1 ls w2 xs ->
    fetched decode self w (l :: ls) w2 (x :: xs).

End Client.

(** ** Notions used in the statements *)

(** The sequence an index holds for a key, empty when the key is missing. *)
Definition stored {A} (d : gmap string (list A)) (k : string) : list A :=
  default [] (d !! k).

(** What grouping [xs] by [key] must store under [k]: the members of [xs]
    with that key, in the order of [xs], and no entry when there is none. *)
Definition same_typed {A} (key : A -> string) (xs : list A) (k : string)
  : option (list A) :=
  match filter (fun x => key x = k) xs with
  | [] => None
  | y :: ys => Some (y :: ys)
  end.

(** The header invariant of a client: the session sends the token. *)
Definition token_in_header (self : VCloudAPIClient) : Prop :=
  session_headers self !! VCLOUD_AUTH_HEADER = Some (token self).

(** [org'] is [org] except that its link index may have gained the key
    [key] with an empty sequence. *)
Definition same_but_for_empty (key : string) (org org' : Org.t) : Prop :=
  Org.type org' = Org.type org /\ Org.href org' = Org.href org /\
  Org.name org' = Org.name org /\ Org.id org' = Org.id org /\
  Org.full_name org' = Org.full_name org /\
  Org.description org' = Org.description org /\
  match Org.links org with
  | LinksIndex d =>
      Org.links org' =
      LinksIndex (match d !! key with Some _ => d | None => <[key := []]> d end)
  | other => Org.links org' = other
  end.

(** [org'] holds, for every media type, the sequence that [org] holds. *)
Definition keeps_sequences (org org' : Org.t) : Prop :=
  match Org.links org, Org.links org' with
  | LinksIndex d, LinksIndex d' => forall k, stored d' k = stored d k
  | other, other' => other' = other
  end.

(** Whether the character [c] occurs in [s]. *)
Fixpoint has_char (c : Ascii.ascii) (s : string) : bool :=
  match s with
  | EmptyString => false
  | String a s' => if Ascii.eqb a c then true else has_char c s'
  end.

(** The tag of [k] has the local name [key], as [local_name] reads it. *)
Definition local_is (key : string) (k : Element) : Prop :=
  split "}"%char (tag k) !! 1%nat = Some key.

#[global] Instance local_is_dec key k : Decision (local_is key k) :=
  decide (split "}"%char (tag k) !! 1%nat = Some key).

(** What a capacity bag built from the children [ks] must hold under
    [key]: the text of the last child of that local name. *)
Definition bag_value (ks : list Element) (key : string)
  : option (option string) :=
  text <$> last (filter (local_is key) ks).

(** [ipr] is the range of the [IpRange] element [r]: both addresses are
    there and have a text. *)
Definition range_of (r : Element) (ipr : IpRange.t) : Prop :=
  exists s e,
    find r "StartAddress" = Some s /\ find r "EndAddress" = Some e /\
    text s = IpRange.first ipr /\ text e = IpRange.last ipr /\
    is_Some (IpRange.first ipr) /\ is_Some (IpRange.last ipr).

(** ** Concrete documents and servers *)

Module Scenario.

Definition orgList_type : string := "application/vnd.vmware.vcloud.orgList+xml".
Definition org_type : string := "application/vnd.vmware.vcloud.org+xml".
Definition orgNetwork_type : string :=
  "application/vnd.vmware.vcloud.orgNetwork+xml".
Definition vdc_type : string := "application/vnd.vmware.vcloud.vdc+xml".

(** [<Link type=... href=... rel=.../>] *)
Definition link_el (type href rel : string) : Element :=
  Elem (qname "Link") {[ "type" := type; "href" := href; "rel" := rel ]}
    None [].

(** A session document with two links of the org-list type around a link
    of another type. *)
Definition session_doc : Element :=
  Elem (qname "Session") {[ "user" := "admin" ]} None
    [ link_el orgList_type "https://vc/api/org/" "down";
      link_el "application/vnd.vmware.admin.vcloud+xml" "https://vc/api/admin/"
        "down";
      link_el orgList_type "https://vc/api/org2/" "down" ].

Definition session_links : gmap string (list Link.t) :=
  {[ orgList_type :=
       [ Link.mk orgList_type "https://vc/api/org/" "down" None;
         Link.mk orgList_type "https://vc/api/org2/" "down" None ];
     "application/vnd.vmware.admin.vcloud+xml" :=
       [ Link.mk "application/vnd.vmware.admin.vcloud+xml"
           "https://vc/api/admin/" "down" None ] ]}.

(** [<Org type=... href=... name=.../>] as it appears in an org list. *)
Definition org_short_el (name href : string) : Element :=
  Elem (qname "Org") {[ "type" := org_type; "href" := href; "name" := name ]}
    None [].

Definition orglist_doc : Element :=
  Elem (qname "OrgList") ∅ None
    [ org_short_el "Acme" "https://vc/api/org/1";
      org_short_el "acme" "https://vc/api/org/2";
      org_short_el "Acme" "https://vc/api/org/3" ].

(** A full org whose [Description] is empty and which has no link. *)
Definition acme_doc : Element :=
  Elem (qname "Org")
    {[ "type" := org_type; "href" := "https://vc/api/org/1";
       "name" := "Acme"; "id" := "urn:vcloud:org:1" ]} None
    [ Elem (qname "FullName") ∅ (Some "Acme Corp") [];
      Elem (qname "Description") ∅ None [] ].

(** The same org without its [id] attribute. *)
Definition acme_without_id : Element :=
  Elem (qname "Org")
    {[ "type" := org_type; "href" := "https://vc/api/org/1";
       "name" := "Acme" ]} None
    [ Elem (qname "FullName") ∅ (Some "Acme Corp") [];
      Elem (qname "Description") ∅ None [] ].

(** An external network with a [Description] and no [Configuration]. *)
Definition extnet_doc : Element :=
  Elem (qname "VMWExternalNetwork")
    {[ "type" := "application/vnd.vmware.admin.vmwexternalnet+xml";
       "href" := "https://vc/api/admin/extension/externalnet/7";
       "name" := "uplink"; "id" := "urn:vcloud:network:7" ]} None
    [ Elem (qname "Description") ∅ (Some "provider uplink") [] ].

(** A datacenter document with two vApps around a media entity. *)
Definition vdc_doc : Element :=
  Elem (qname "Vdc")
    {[ "type" := vdc_type; "href" := "https://vc/api/vdc/5";
       "name" := "dc"; "id" := "urn:vcloud:vdc:5" ]} None
    [ Elem (qname "StorageCapacity") ∅ None
        [ Elem (qname "Allocated") ∅ (Some "100") [];
          Elem (qname "Used") ∅ (Some "50") [] ];
      Elem (qname "ComputeCapacity") ∅ None
        [ Elem (qname "Cpu") ∅ None [ Elem (qname "Units") ∅ (Some "MHz") [] ];
          Elem (qname "Memory") ∅ None
            [ Elem (qname "Units") ∅ (Some "MB") [] ] ];
      Elem (qname "ResourceEntities") ∅ None
        [ Elem (qname "ResourceEntity")
            {[ "type" := "application/vnd.vmware.vcloud.vApp+xml";
               "href" := "https://vc/api/vApp/1"; "name" := "web" ]} None [];
          Elem (qname "ResourceEntity")
            {[ "type" := "application/vnd.vmware.vcloud.media+xml";
               "href" := "https://vc/api/media/2" ]} None [];
          Elem (qname "ResourceEntity")
            {[ "type" := "application/vnd.vmware.vcloud.vApp+xml";
               "href" := "https://vc/api/vApp/3"; "name" := "db" ]} None [] ] ].

(** An org network with one address range. *)
Definition net_doc (name : string) : Element :=
  Elem (qname "OrgNetwork") {[ "name" := name ]} None
    [ Elem (qname "Configuration") ∅ None
        [ Elem (qname "IpScope") ∅ None
            [ Elem (qname "Gateway") ∅ (Some "10.0.0.1") [];
              Elem (qname "Netmask") ∅ (Some "255.255.255.0") [];
              Elem (qname "DnsSuffix") ∅ (Some "example.org") [];
              Elem (qname "IpRanges") ∅ None
                [ Elem (qname "IpRange") ∅ None
                    [ Elem (qname "StartAddress") ∅ (Some "10.0.0.2") [];
                      Elem (qname "EndAddress") ∅ (Some "10.0.0.9") [] ] ] ] ] ].

(** A server given by a table from URLs to what a request to each does; it
    keeps the log of the requests it has received. *)
Definition server (routes : gmap string sent)
  (log : list Request.t) (req : Request.t) : list Request.t * sent :=
  ((log ++ [req])%list, default (Failed ConnectionError) (routes !! Request.url req)).

Definition page (status : Z) (doc : Element) : sent :=
  Responded (Response.mk status ∅ (Some doc)).

Definition routes : gmap string sent :=
  {[ "https://vc/api/session" := page 200 session_doc;
     "https://vc/api/org/" := page 200 orglist_doc;
     "https://vc/api/org/1" := page 200 acme_doc;
     "https://vc/api/network/1" := page 200 (net_doc "front");
     "https://vc/api/network/2" := page 200 (net_doc "back");
     "https://vc/api/cached" := page 304 session_doc;
     "https://vc/api/missing" := page 404 session_doc ]}.

(** A client that has fetched [session_doc]. *)
Definition client : VCloudAPIClient :=
  mkClient {[ "accept" := Some VCLOUD_MIME;
              VCLOUD_AUTH_HEADER := Some "secret" ]}
    (Some "secret") "https://vc/api" (Some session_links).

(** A full org without any link, and one with two network links. *)
Definition bare_org : Org.t :=
  Org.mk org_type "https://vc/api/org/1" "Acme" (Some "urn:vcloud:org:1")
    (Some "Acme Corp") None (LinksIndex ∅).

Definition net_links : list Link.t :=
  [ Link.mk orgNetwork_type "https://vc/api/network/1" "down" (Some "front");
    Link.mk orgNetwork_type "https://vc/api/network/2" "down" (Some "back") ].

Definition networked_org : Org.t :=
  Org.mk org_type "https://vc/api/org/1" "Acme" (Some "urn:vcloud:org:1")
    (Some "Acme Corp") None (LinksIndex {[ orgNetwork_type := net_links ]}).

(** The org list that [orglist_doc] decodes to. *)
Definition parsed_orglist : OrgList.t :=
  OrgList.mk
    [ Org.mk org_type "https://vc/api/org/1" "Acme" None None None LinksNone;
      Org.mk org_type "https://vc/api/org/2" "acme" None None None LinksNone;
      Org.mk org_type "https://vc/api/org/3" "Acme" None None None LinksNone ].

(** The GET that [client] sends to a URL. *)
Definition get (url : string) : Request.t :=
  Request.mk "get" url (session_headers client) None.

(** The network that [net_doc] decodes to. *)
Definition parsed_net (name : string) : OrgNet.t :=
  OrgNet.mk name (Some "10.0.0.1") (Some "255.255.255.0") (Some "example.org")
    [ IpRange.mk (Some "10.0.0.2") (Some "10.0.0.9") ].

(** The entity index of [vdc_doc]. *)
Definition vdc_entity_index : gmap string (list ResourceEntity.t) :=
  {[ "application/vnd.vmware.vcloud.vApp+xml" :=
       [ ResourceEntity.mk "application/vnd.vmware.vcloud.vApp+xml"
           "https://vc/api/vApp/1" (Some "web");
         ResourceEntity.mk "application/vnd.vmware.vcloud.vApp+xml"
           "https://vc/api/vApp/3" (Some "db") ];
     "application/vnd.vmware.vcloud.media+xml" :=
       [ ResourceEntity.mk "application/vnd.vmware.vcloud.media+xml"
           "https://vc/api/media/2" None ] ]}.

(** A client whose session document had no link at all. *)
Definition blind_client : VCloudAPIClient :=
  mkClient {[ "accept" := Some VCLOUD_MIME;
              VCLOUD_AUTH_HEADER := Some "secret" ]}
    (Some "secret") "https://vc/api" (Some ∅).

(** The client that [__init__] builds when the environment has no token
    and nobody is logged in. *)
Definition anonymous_client : VCloudAPIClient :=
  mkClient {[ "accept" := Some VCLOUD_MIME; VCLOUD_AUTH_HEADER := None ]}
    None "https://vc/api" None.

(** A server that answers 401 to everything: nobody is logged in. *)
Definition unauthorized (w : unit) (req : Request.t) : unit * sent :=
  (w, Responded (Response.mk 401 ∅ None)).

End Scenario.

(** ** Further documents and servers *)

Module Cases.

(** A [Link] with an attribute that is not a field of the record. *)
Definition link_with_id : Element :=
  Elem (qname "Link")
    {[ "type" := Scenario.org_type; "href" := "https://vc/api/org/1";
       "rel" := "down"; "id" := "urn:vcloud:org:1" ]} None [].

(** A [Link] without [rel]. *)
Definition link_without_rel : Element :=
  Elem (qname "Link")
    {[ "type" := Scenario.org_type; "href" := "https://vc/api/org/1" ]} None [].

(** A session document whose second and third links do not decode. *)
Definition broken_session_doc : Element :=
  Elem (qname "Session") ∅ None
    [ Scenario.link_el Scenario.orgList_type "https://vc/api/org/" "down";
      Elem (qname "Task") ∅ None [];
      link_with_id;
      link_without_rel ].

(** An org summary with an attribute that is not a field of the record. *)
Definition org_with_key : Element :=
  Elem (qname "Org")
    {[ "type" := Scenario.org_type; "href" := "https://vc/api/org/1";
       "name" := "Acme"; "operationKey" := "k" ]} None [].

(** An org summary that has an [id]. *)
Definition org_with_id : Element :=
  Elem (qname "Org")
    {[ "type" := Scenario.org_type; "href" := "https://vc/api/org/1";
       "name" := "Acme"; "id" := "urn:vcloud:org:1" ]} None [].

Definition extnet_type : string :=
  "application/vnd.vmware.admin.vmwexternalnet+xml".

(** [<Network type=... href=... name=.../>] *)
Definition network_el (name href : string) : Element :=
  Elem (qname "Network")
    {[ "type" := extnet_type; "href" := href; "name" := name ]} None [].

(** An admin document: one [Network] outside [Networks] and two in it. *)
Definition admin_doc : Element :=
  Elem (qname "VCloud") ∅ None
    [ network_el "stray" "https://vc/api/admin/network/0";
      Elem (qname "Networks") ∅ None
        [ network_el "uplink" "https://vc/api/admin/network/7";
          network_el "backup" "https://vc/api/admin/network/8" ] ].

Definition parsed_extnets : ExtNetList.t :=
  ExtNetList.mk
    [ ExtNet.mk extnet_type "https://vc/api/admin/network/7" "uplink"
        ConfigNone None None LinksNone;
      ExtNet.mk extnet_type "https://vc/api/admin/network/8" "backup"
        ConfigNone None None LinksNone ].

(** The children of a capacity element in which [Allocated] comes twice
    and [Overhead] is empty. *)
Definition capacity_children : list Element :=
  [ Elem (qname "Allocated") ∅ (Some "100") [];
    Elem (qname "Used") ∅ (Some "50") [];
    Elem (qname "Overhead") ∅ None [];
    Elem (qname "Allocated") ∅ (Some "120") [] ].

Definition capacity_bag : gmap string (option string) :=
  {[ "Allocated" := Some "120"; "Used" := Some "50"; "Overhead" := None ]}.

(** The datacenter that [Scenario.vdc_doc] decodes to. *)
Definition parsed_vdc : OrgVdc.t :=
  OrgVdc.mk Scenario.vdc_type "https://vc/api/vdc/5" "dc"
    (Some "urn:vcloud:vdc:5")
    (Some {[ "Allocated" := Some "100"; "Used" := Some "50" ]})
    (Some {[ "cpu" := {[ "Units" := Some "MHz" ]};
             "memory" := {[ "Units" := Some "MB" ]} ]})
    (LinksIndex ∅) (Some Scenario.vdc_entity_index).

(** A network whose one range has an empty end address. *)
Definition net_with_open_range : Element :=
  Elem (qname "OrgNetwork") {[ "name" := "front" ]} None
    [ Elem (qname "Configuration") ∅ None
        [ Elem (qname "IpScope") ∅ None
            [ Elem (qname "Gateway") ∅ (Some "10.0.0.1") [];
              Elem (qname "Netmask") ∅ (Some "255.255.255.0") [];
              Elem (qname "DnsSuffix") ∅ (Some "example.org") [];
              Elem (qname "IpRanges") ∅ None
                [ Elem (qname "IpRange") ∅ None
                    [ Elem (qname "StartAddress") ∅ (Some "10.0.0.2") [];
                      Elem (qname "EndAddress") ∅ None [] ] ] ] ] ].

(** The routes of [Scenario.routes] and three more: the login, the admin
    document and a datacenter. *)
Definition routes : gmap string sent :=
  <[ "https://vc/api/sessions" :=
       Responded (Response.mk 200 {[ VCLOUD_AUTH_HEADER := "secret" ]} None) ]>
    (<[ "https://vc/api/admin/" := Scenario.page 200 admin_doc ]>
       (<[ "https://vc/api/vdc/5" := Scenario.page 200 Scenario.vdc_doc ]>
          Scenario.routes)).

(** The routes of [Scenario.routes] without the second network. *)
Definition routes_without_back : gmap string sent :=
  delete "https://vc/api/network/2" Scenario.routes.


(** The probe of an anonymous client. *)
Definition anonymous_probe : Request.t :=
  Request.mk "get" "https://vc/api/session"
    (session_headers Scenario.anonymous_client) None.


(** An org with one datacenter link. *)
Definition vdc_org : Org.t :=
  Org.mk Scenario.org_type "https://vc/api/org/1" "Acme"
    (Some "urn:vcloud:org:1") (Some "Acme Corp") None
    (LinksIndex
       {[ Scenario.vdc_type :=
            [ Link.mk Scenario.vdc_type "https://vc/api/vdc/5" "down"
                (Some "dc") ] ]}).

End Cases.

(** * Properties *)

(** ** Lookups by name *)

Section FirstMatch.

Context {A : Type} (name_of : A -> string) (loop : list A -> string -> option A).

Hypothesis loop_nil : forall name, loop [] name = None.
Hypothesis loop_cons : forall x xs name,
  loop (x :: xs) name =
  if String.eqb (name_of x) name then Some x else loop xs name.

Lemma first_named_Some xs name x :
  loop xs name = Some x <->
  exists before after,
    xs = before ++ x :: after /\ name_of x = name /\
    Forall (fun y => name_of y <> name) before.
Proof.
  induction xs as [|y ys IH].
  - rewrite loop_nil. split; [discriminate|]. intros (before & after & E & _).
    destruct before; discriminate.
  - rewrite loop_cons.
    destruct (String.eqb_spec (name_of y) name) as [Hy|Hy].
    + split.
      * intros [= ->]. exists [], ys. auto.
      * intros (before & after & E & Hx & Hb).
        destruct before as [|b before]; simpl in E.
        -- congruence.
        -- inversion E; subst b. inversion Hb; contradiction.
    + rewrite IH. split.
      * intros (before & after & -> & Hx & Hb).
        exists (y :: before), after. auto.
      * intros (before & after & E & Hx & Hb).
        destruct before as [|b before]; simpl in E.
        -- inversion E; subst; contradiction.
        -- inversion E; subst. inversion Hb; subst. eauto.
Qed.

Lemma first_named_None xs name :
  loop xs name = None <-> Forall (fun y => name_of y <> name) xs.
Proof.
  induction xs as [|y ys IH].
  - rewrite loop_nil. split; auto.
  - rewrite loop_cons.
    destruct (String.eqb_spec (name_of y) name) as [Hy|Hy].
    + split; [discriminate|]. inversion 1; contradiction.
    + rewrite IH. split; [auto|]. inversion 1; auto.
Qed.

End FirstMatch.

(** C7. On the empty list [org_by_name] and [ext_net_by_name] return
    [None]; they return a record exactly when it is the first element of
    the list whose [name] equals the argument, character for character,
    and the record returned is that element itself; they return [None]
    exactly when no element has that name. *)
Theorem by_name_first_exact_match :
  (forall name, OrgList.org_by_name (OrgList.mk []) name = None) /\
  (forall ol name o,
     OrgList.org_by_name ol name = Some o <->
     exists before after,
       OrgList.orgs ol = before ++ o :: after /\ Org.name o = name /\
       Forall (fun o' => Org.name o' <> name) before) /\
  (forall ol name,
     OrgList.org_by_name ol name = None <->
     Forall (fun o => Org.name o <> name) (OrgList.orgs ol)) /\
  (forall name, ExtNetList.ext_net_by_name (ExtNetList.mk []) name = None) /\
  (forall enl name en,
     ExtNetList.ext_net_by_name enl name = Some en <->
     exists before after,
       ExtNetList.ext_nets enl = before ++ en :: after /\
       ExtNet.name en = name /\
       Forall (fun en' => ExtNet.name en' <> name) before) /\
  (forall enl name,
     ExtNetList.ext_net_by_name enl name = None <->
     Forall (fun en => ExtNet.name en <> name) (ExtNetList.ext_nets enl)).
Proof.
  split; [reflexivity|]. split.
  { intros. by apply (first_named_Some Org.name OrgList.org_by_name_loop). }
  split.
  { intros. by apply (first_named_None Org.name OrgList.org_by_name_loop). }
  split; [reflexivity|]. split.
  { intros.
    by apply (first_named_Some ExtNet.name ExtNetList.ext_net_by_name_loop). }
  intros.
  by apply (first_named_None ExtNet.name ExtNetList.ext_net_by_name_loop).
Qed.

(** ** Grouping by type *)

Section Grouping.

Context {A : Type} (key : A -> string).

Lemma lookup_defaultdict_append (d : gmap string (list A)) k x k' :
  defaultdict_append d k x !! k' =
  if decide (k = k') then Some (stored d k ++ [x]) else d !! k'.
Proof.
  unfold defaultdict_append, defaultdict_getitem, stored.
  destruct (d !! k) as [v|] eqn:E; simpl.
  - rewrite lookup_insert. by case_decide.
  - rewrite lookup_insert. case_decide; [done|].
    by rewrite lookup_insert_ne.
Qed.

(** Filling an index one element at a time, as the two loops do. *)
Lemma lookup_fold_append (xs : list A) (d : gmap string (list A)) k :
  fold_left (fun d x => defaultdict_append d (key x) x) xs d !! k =
  match d !! k, filter (fun x => key x = k) xs with
  | None, [] => None
  | o, ys => Some (default [] o ++ ys)
  end.
Proof.
  revert d. induction xs as [|x xs IH]; intros d; simpl.
  - rewrite filter_nil. destruct (d !! k); simpl; [by rewrite app_nil_r|done].
  - rewrite IH, lookup_defaultdict_append, filter_cons.
    case_decide as Hk; [|done].
    subst k. unfold stored.
    destruct (d !! key x); simpl; by rewrite <- ?app_assoc.
Qed.

Lemma lookup_fold_append_empty (xs : list A) k :
  fold_left (fun d x => defaultdict_append d (key x) x) xs ∅ !! k =
  same_typed key xs k.
Proof.
  rewrite lookup_fold_append, lookup_empty. unfold same_typed.
  by destruct (filter _ xs).
Qed.

End Grouping.

Lemma _parse_links_loop_fold cs res idx :
  _parse_links_loop cs res = Ok idx <->
  exists ls,
    Forall2 (fun c l => _parse_link c = Ok l) cs ls /\
    idx = fold_left (fun d l => defaultdict_append d (Link.type l) l) ls res.
Proof.
  revert res. induction cs as [|c cs IH]; intros res; simpl.
  - split.
    + intros [= <-]. exists []. split; [constructor|done].
    + intros (ls & H & ->). inversion H; subst. done.
  - destruct (_parse_link c) as [l|e] eqn:E; simpl.
    + rewrite IH. split.
      * intros (ls & H & ->). exists (l :: ls). split; [by constructor|done].
      * intros (ls & H & ->). inversion H as [|? l' ? ls' Hl Hls]; subst.
        rewrite E in Hl. injection Hl as <-. eauto.
    + split; [discriminate|].
      intros (ls & H & _). inversion H; subst. congruence.
Qed.

Lemma _parse_resource_entities_loop_fold cs res idx :
  _parse_resource_entities_loop cs res = Ok idx <->
  exists es,
    Forall2 (fun c re => _parse_resource_entity c = Ok re) cs es /\
    idx = fold_left
            (fun d re => defaultdict_append d (ResourceEntity.type re) re)
            es res.
Proof.
  revert res. induction cs as [|c cs IH]; intros res; simpl.
  - split.
    + intros [= <-]. exists []. split; [constructor|done].
    + intros (ls & H & ->). inversion H; subst. done.
  - destruct (_parse_resource_entity c) as [l|e] eqn:E; simpl.
    + rewrite IH. split.
      * intros (ls & H & ->). exists (l :: ls). split; [by constructor|done].
      * intros (ls & H & ->). inversion H as [|? l' ? ls' Hl Hls]; subst.
        rewrite E in Hl. injection Hl as <-. eauto.
    + split; [discriminate|].
      intros (ls & H & _). inversion H; subst. congruence.
Qed.

(** What a successful [_parse_links] returns: the links of the [Link]
    children, one per child and in their order, grouped by type. *)
Lemma _parse_links_Ok el idx :
  _parse_links el = Ok idx <->
  exists ls,
    Forall2 (fun c l => _parse_link c = Ok l) (findall el "Link") ls /\
    forall k, idx !! k = same_typed Link.type ls k.
Proof.
  unfold _parse_links. rewrite _parse_links_loop_fold. split.
  - intros (ls & H & ->). exists ls. split; [done|].
    intros k. apply lookup_fold_append_empty.
  - intros (ls & H & Hk). exists ls. split; [done|].
    apply map_eq. intros k. by rewrite Hk, lookup_fold_append_empty.
Qed.

Lemma _parse_link_type c l :
  _parse_link c = Ok l -> attrib c !! "type" = Some (Link.type l).
Proof.
  unfold _parse_link. destruct (kwargs_ok _ _); [|discriminate].
  destruct (attrib c !! "type"), (attrib c !! "href"), (attrib c !! "rel");
    try discriminate.
  by intros [= <-].
Qed.

Lemma _parse_resource_entity_type c re :
  _parse_resource_entity c = Ok re ->
  attrib c !! "type" = Some (ResourceEntity.type re).
Proof.
  unfold _parse_resource_entity. destruct (kwargs_ok _ _); [|discriminate].
  destruct (attrib c !! "type"), (attrib c !! "href"); try discriminate.
  by intros [= <-].
Qed.

(** What a successful [_parse_resource_entities] returns. *)
Lemma _parse_resource_entities_Ok el idx :
  _parse_resource_entities el = Ok idx <->
  exists box es,
    find el "ResourceEntities" = Some box /\
    Forall2 (fun c re => _parse_resource_entity c = Ok re)
      (findall box "ResourceEntity") es /\
    forall k, idx !! k = same_typed ResourceEntity.type es k.
Proof.
  unfold _parse_resource_entities.
  destruct (find el "ResourceEntities") as [box|].
  - rewrite _parse_resource_entities_loop_fold. split.
    + intros (es & H & ->). exists box, es. split; [done|]. split; [done|].
      intros k. apply lookup_fold_append_empty.
    + intros (box' & es & [= <-] & H & Hk). exists es. split; [done|].
      apply map_eq. intros k. by rewrite Hk, lookup_fold_append_empty.
  - split; [discriminate|]. intros (? & ? & [=] & _).
Qed.

(** C8. [_parse_links] builds an index from an element, and
    [_parse_resource_entities] one from its [ResourceEntities] child,
    exactly when every [Link] (resp. [ResourceEntity]) child decodes; and
    the index built is the one in which the sequence under each type is
    the list of the decoded children whose own [type] attribute is that
    type, in document order, a type that no child has getting no
    entry. *)
Theorem index_groups_in_document_order (el : Element) :
  (forall idx,
     _parse_links el = Ok idx <->
     exists ls,
       Forall2 (fun c l => _parse_link c = Ok l /\
                           attrib c !! "type" = Some (Link.type l))
         (findall el "Link") ls /\
       forall k,
         idx !! k = same_typed Link.type ls k /\
         stored idx k = filter (fun l => Link.type l = k) ls) /\
  (forall idx,
     _parse_resource_entities el = Ok idx <->
     exists box es,
       find el "ResourceEntities" = Some box /\
       Forall2 (fun c re => _parse_resource_entity c = Ok re /\
                            attrib c !! "type" = Some (ResourceEntity.type re))
         (findall box "ResourceEntity") es /\
       forall k,
         idx !! k = same_typed ResourceEntity.type es k /\
         stored idx k = filter (fun re => ResourceEntity.type re = k) es).
Proof.
  split.
  - intros idx. rewrite _parse_links_Ok. split.
    + intros (ls & H & Hk). exists ls. split.
      { eapply Forall2_impl; [exact H|]. eauto using _parse_link_type. }
      intros k. split; [done|]. unfold stored. rewrite Hk. unfold same_typed.
      by destruct (filter _ ls).
    + intros (ls & H & Hk). exists ls. split.
      { eapply Forall2_impl; [exact H|]. by intros c l [Hc _]. }
      intros k. apply Hk.
  - intros idx. rewrite _parse_resource_entities_Ok. split.
    + intros (box & es & Hb & H & Hk). exists box, es. split; [done|]. split.
      { eapply Forall2_impl; [exact H|].
        eauto using _parse_resource_entity_type. }
      intros k. split; [done|]. unfold stored. rewrite Hk. unfold same_typed.
      by destruct (filter _ es).
    + intros (box & es & Hb & H & Hk). exists box, es. split; [done|]. split.
      { eapply Forall2_impl; [exact H|]. by intros c re [Hc _]. }
      intros k. apply Hk.
Qed.

(** ** Type lookup *)

(** C4. [_lookup typ] looks under the key
    [application/vnd.vmware.<typ>+xml] and, when the index holds a
    sequence there, returns the [href] of its first link; for the index of
    a session document that is the first [Link] child of that type in
    document order. *)
Theorem lookup_first_link (self : VCloudAPIClient) (typ : string) :
  (forall idx l rest,
     _links self = Some idx ->
     idx !! ("application/vnd.vmware." +:+ typ +:+ "+xml") = Some (l :: rest) ->
     _lookup self typ = Ok (Link.href l)) /\
  (forall el idx,
     _parse_links el = Ok idx ->
     _links self = Some idx ->
     is_Some (idx !! ("application/vnd.vmware." +:+ typ +:+ "+xml")) ->
     exists ls l rest,
       Forall2 (fun c l => _parse_link c = Ok l) (findall el "Link") ls /\
       filter (fun l => Link.type l =
                        "application/vnd.vmware." +:+ typ +:+ "+xml") ls
       = l :: rest /\
       _lookup self typ = Ok (Link.href l)).
Proof.
  assert (Hhead : forall idx l rest,
            _links self = Some idx ->
            idx !! full_typ typ = Some (l :: rest) ->
            _lookup self typ = Ok (Link.href l)).
  { intros idx l rest Hl Hk. unfold _lookup. by rewrite Hl, Hk. }
  split; [exact Hhead|].
  intros el idx Hp Hl [v Hv].
  apply _parse_links_Ok in Hp as (ls & Hls & Hk).
  fold (full_typ typ) in *. rewrite Hk in Hv. unfold same_typed in Hv.
  destruct (filter _ ls) as [|l rest] eqn:Hf; [discriminate|].
  exists ls, l, rest. split; [done|]. split; [done|].
  apply (Hhead idx l rest); [done|].
  rewrite Hk. unfold same_typed. by rewrite Hf.
Qed.

(** C5, as the code has it.  When the index has no entry for the full
    media type, [_lookup typ] raises [APIError] with the message
    [Don't know anything about type '<typ>']: the class that wraps HTTP
    status errors, not a class of its own. *)
Theorem lookup_unknown_type (self : VCloudAPIClient) (typ : string)
  (idx : gmap string (list Link.t)) :
  _links self = Some idx ->
  idx !! ("application/vnd.vmware." +:+ typ +:+ "+xml") = None ->
  exists e,
    _lookup self typ = Raise e /\
    e = APIError (Message ("Don't know anything about type '" +:+ typ +:+ "'")) /\
    class_name e = "APIError".
Proof.
  intros Hl Hk. eexists. split; [|split; reflexivity].
  unfold _lookup. fold (full_typ typ) in Hk. by rewrite Hl, Hk.
Qed.

(** ** Requests *)

Section Requests.

Context {World : Type} (request : World -> Request.t -> World * sent).

(** C6, as the code has it.  With [_raise] set, a response whose status is
    from 400 to 599 becomes an [APIError] that carries the [HTTPError] of
    that response, and a response with any other status is returned; with
    [_raise] unset every response is returned.  An exception raised while
    the request is sent leaves [_req] as it is, in both modes. *)
Theorem req_outcomes (self : VCloudAPIClient) (method url : string)
  (auth : option (string * string)) (w w' : World) (out : sent) :
  request w (Request.mk method url (session_headers self) auth) = (w', out) ->
  match out with
  | Failed err =>
      forall _raise,
        _req request self method url _raise auth w = (w', Raise (Requests err))
  | Responded res =>
      _req request self method url false auth w = (w', Ok res) /\
      _req request self method url true auth w =
      (w', if bool_decide (400 <= Response.status_code res < 600)%Z
           then Raise (APIError (Caught (HTTPError res)))
           else Ok res)
  end.
Proof.
  intros Hout. unfold _req. rewrite Hout. destruct out as [res|err]; [|done].
  split; [done|]. f_equal.
  unfold _custom_raise_for_status, raise_for_status.
  case_bool_decide as Hs.
  - replace (_ && _)%bool with true; [done|].
    symmetry. apply andb_true_iff. lia.
  - replace (_ && _)%bool with false; [done|].
    symmetry. apply andb_false_iff. lia.
Qed.

(** ** The token and the session header *)

(** C10. Assigning the [token] property stores the value and writes that
    very value, [None] included, under [x-vcloud-authorization] in the
    session headers.  So a client that [__init__] has built sends the
    value of [VCLOUD_AUTH_TOKEN] in the environment, which is [None] when
    the variable is unset, and after [login] the header still is the
    token. *)
Theorem token_always_in_header :
  (forall self tok,
     session_headers (set_token self tok) !! "x-vcloud-authorization"
     = Some tok /\
     token (set_token self tok) = tok) /\
  (forall env root w w' self,
     __init__ request env root w = (w', Ok self) ->
     session_headers self !! "x-vcloud-authorization"
     = Some (env !! "VCLOUD_AUTH_TOKEN") /\
     token self = env !! "VCLOUD_AUTH_TOKEN") /\
  (forall self username password w w' self' r,
     login request self username password w = (w', self', r) ->
     (token_in_header self \/ r = Ok tt) ->
     token_in_header self').
Proof.
  split; [|split].
  - intros self tok. split; [|done]. apply lookup_insert_eq.
  - intros env root0 w w' self. unfold __init__.
    unfold mbind at 1, M_bind, pure.
    destruct (match root0 with Some r => _ | None => _ end) as [r|e];
      [|discriminate].
    unfold mbind at 1, M_bind.
    destruct (logged_in _ _ w) as [w1 [[]|e]]; [| |discriminate].
    + unfold mbind, M_bind.
      destruct (_fetch_initial_links _ _ w1) as [w2 [links|e]];
        [|discriminate].
      intros [= _ <-]. split; [|done]. apply lookup_insert_eq.
    + intros [= _ <-]. split; [|done]. apply lookup_insert_eq.
  - intros self u p w w' self' r. unfold login.
    destruct (_req _ _ _ _ _ _ w) as [w1 [res|e]].
    + destruct (Response.headers res !! VCLOUD_AUTH_HEADER) as [tok|].
      * destruct (_fetch_initial_links _ _ w1) as [w2 [links|e]];
          intros [= _ <- _] _; apply lookup_insert_eq.
      * intros [= _ <- <-] [H|H]; [done|discriminate].
    + intros [= _ <- <-] [H|H]; [done|discriminate].
Qed.

End Requests.

(** ** The full decoders *)

Lemma attrib_getitem_Ok el key v :
  attrib_getitem el key = Ok v <-> attrib el !! key = Some v.
Proof.
  unfold attrib_getitem. destruct (attrib el !! key); split; congruence.
Qed.

Lemma text_of_Ok x t :
  text_of x = Ok t <-> exists c, x = Some c /\ t = text c.
Proof.
  destruct x as [c|]; simpl; split.
  - intros [= <-]. eauto.
  - intros (c' & [= <-] & ->). done.
  - discriminate.
  - intros (c' & [=] & _).
Qed.

(** What a successful [_parse_org] needs and returns. *)
Lemma _parse_org_Ok el o :
  _parse_org el = Ok o <->
  exists type_ href name id_ fn ds links,
    attrib el !! "type" = Some type_ /\ attrib el !! "href" = Some href /\
    attrib el !! "name" = Some name /\ attrib el !! "id" = Some id_ /\
    find el "FullName" = Some fn /\ find el "Description" = Some ds /\
    _parse_links el = Ok links /\
    o = Org.mk type_ href name (Some id_) (text fn) (text ds) (LinksIndex links).
Proof.
  unfold _parse_org, attrib_getitem, text_of.
  destruct (attrib el !! "type") as [t|]; simpl;
    [|split; [discriminate|intros (?&?&?&?&?&?&?&[=]&_)]].
  destruct (attrib el !! "href") as [h|]; simpl;
    [|split; [discriminate|intros (?&?&?&?&?&?&?&_&[=]&_)]].
  destruct (attrib el !! "name") as [n|]; simpl;
    [|split; [discriminate|intros (?&?&?&?&?&?&?&_&_&[=]&_)]].
  destruct (attrib el !! "id") as [i|]; simpl;
    [|split; [discriminate|intros (?&?&?&?&?&?&?&_&_&_&[=]&_)]].
  destruct (find el "FullName") as [fn|]; simpl;
    [|split; [discriminate|intros (?&?&?&?&?&?&?&_&_&_&_&[=]&_)]].
  destruct (find el "Description") as [ds|]; simpl;
    [|split; [discriminate|intros (?&?&?&?&?&?&?&_&_&_&_&_&[=]&_)]].
  destruct (_parse_links el) as [links|e]; simpl;
    [|split; [discriminate|intros (?&?&?&?&?&?&?&_&_&_&_&_&_&[=]&_)]].
  split.
  - intros [= <-]. by exists t, h, n, i, fn, ds, links.
  - intros (?&?&?&?&?&?&?&[= <-]&[= <-]&[= <-]&[= <-]&[= <-]&[= <-]&[= <-]&->).
    done.
Qed.

(** What a successful [_parse_ext_net] needs and returns. *)
Lemma _parse_ext_net_Ok el en :
  _parse_ext_net el = Ok en <->
  exists type_ href name id_ ds links,
    attrib el !! "type" = Some type_ /\ attrib el !! "href" = Some href /\
    attrib el !! "name" = Some name /\ attrib el !! "id" = Some id_ /\
    find el "Description" = Some ds /\
    _parse_links el = Ok links /\
    en = ExtNet.mk type_ href name (config_of_find (find el "Configuration"))
           (Some id_) (text ds) (LinksIndex links).
Proof.
  unfold _parse_ext_net, attrib_getitem, text_of.
  destruct (attrib el !! "type") as [t|]; simpl;
    [|split; [discriminate|intros (?&?&?&?&?&?&[=]&_)]].
  destruct (attrib el !! "href") as [h|]; simpl;
    [|split; [discriminate|intros (?&?&?&?&?&?&_&[=]&_)]].
  destruct (attrib el !! "name") as [n|]; simpl;
    [|split; [discriminate|intros (?&?&?&?&?&?&_&_&[=]&_)]].
  destruct (attrib el !! "id") as [i|]; simpl;
    [|split; [discriminate|intros (?&?&?&?&?&?&_&_&_&[=]&_)]].
  destruct (find el "Description") as [ds|]; simpl;
    [|split; [discriminate|intros (?&?&?&?&?&?&_&_&_&_&[=]&_)]].
  destruct (_parse_links el) as [links|e]; simpl;
    [|split; [discriminate|intros (?&?&?&?&?&?&_&_&_&_&_&[=]&_)]].
  split.
  - intros [= <-]. by exists t, h, n, i, ds, links.
  - intros (?&?&?&?&?&?&[= <-]&[= <-]&[= <-]&[= <-]&[= <-]&[= <-]&->).
    done.
Qed.

(** C2, as the code has it.  [_parse_org] returns a record exactly when
    the element has the attributes [type], [href], [name] and [id], a
    [FullName] child and a [Description] child, and its links decode;
    [_parse_ext_net] exactly when it has the same four attributes and a
    [Description] child, and its links decode.  What may be absent is the
    text of [FullName] and of [Description] and, for an external network,
    the [Configuration] child: these give [None] in the record. *)
Theorem full_decoders_requirements (el : Element) :
  (is_Ok (_parse_org el) <->
   Forall (fun a => is_Some (attrib el !! a)) ["type"; "href"; "name"; "id"] /\
   is_Some (find el "FullName") /\ is_Some (find el "Description") /\
   is_Ok (_parse_links el)) /\
  (is_Ok (_parse_ext_net el) <->
   Forall (fun a => is_Some (attrib el !! a)) ["type"; "href"; "name"; "id"] /\
   is_Some (find el "Description") /\
   is_Ok (_parse_links el)) /\
  (forall o,
     _parse_org el = Ok o ->
     Org.id o = attrib el !! "id" /\
     Org.full_name o = find el "FullName" ≫= text /\
     Org.description o = find el "Description" ≫= text) /\
  (forall en,
     _parse_ext_net el = Ok en ->
     ExtNet.id en = attrib el !! "id" /\
     ExtNet.description en = find el "Description" ≫= text /\
     ExtNet.config en = match find el "Configuration" with
                        | Some c => ConfigElement c
                        | None => ConfigNone
                        end).
Proof.
  split; [|split; [|split]].
  - split.
    + intros [o Ho]. apply _parse_org_Ok in Ho
        as (t&h&n&i&fn&ds&links&Ht&Hh&Hn&Hi&Hfn&Hds&Hl&_).
      rewrite Hfn, Hds, Hl. split; [|unfold is_Ok; eauto].
      repeat constructor; eauto.
    + intros (Ha & [fn Hfn] & [ds Hds] & [links Hl]).
      inversion Ha as [|? ? [t Ht] Ha1]; subst.
      inversion Ha1 as [|? ? [h Hh] Ha2]; subst.
      inversion Ha2 as [|? ? [n Hn] Ha3]; subst.
      inversion Ha3 as [|? ? [i Hi] _]; subst.
      eexists. apply _parse_org_Ok. by exists t, h, n, i, fn, ds, links.
  - split.
    + intros [en Hen]. apply _parse_ext_net_Ok in Hen
        as (t&h&n&i&ds&links&Ht&Hh&Hn&Hi&Hds&Hl&_).
      rewrite Hds, Hl. split; [|unfold is_Ok; eauto].
      repeat constructor; eauto.
    + intros (Ha & [ds Hds] & [links Hl]).
      inversion Ha as [|? ? [t Ht] Ha1]; subst.
      inversion Ha1 as [|? ? [h Hh] Ha2]; subst.
      inversion Ha2 as [|? ? [n Hn] Ha3]; subst.
      inversion Ha3 as [|? ? [i Hi] _]; subst.
      eexists. apply _parse_ext_net_Ok. by exists t, h, n, i, ds, links.
  - intros o Ho. apply _parse_org_Ok in Ho
      as (t&h&n&i&fn&ds&links&Ht&Hh&Hn&Hi&Hfn&Hds&Hl&->).
    by rewrite Hi, Hfn, Hds.
  - intros en Hen. apply _parse_ext_net_Ok in Hen
      as (t&h&n&i&ds&links&Ht&Hh&Hn&Hi&Hds&Hl&->).
    by rewrite Hi, Hds.
Qed.

(** ** The accessors *)

Section Accessors.

Context {World : Type} (request : World -> Request.t -> World * sent).

(** C1, as the code has it.  When the org list has been fetched and holds
    no org of the given name, [org name] fails right there: reading [href]
    from the [None] that [org_by_name] returned raises [AttributeError].
    The server is left as the fetch of the list left it, so no request for
    an org is sent, and no record is returned. *)
Theorem org_absent_name (self : VCloudAPIClient) (name : string)
  (w w1 : World) (ol : OrgList.t) :
  org_list request self w = (w1, Ok ol) ->
  OrgList.org_by_name ol name = None ->
  exists e,
    org request self name w = (w1, Raise e) /\
    e = AttributeError "'NoneType' object has no attribute 'href'" /\
    class_name e = "AttributeError".
Proof.
  intros Hol Hn. eexists. split; [|split; reflexivity].
  unfold org. unfold mbind at 1, M_bind. rewrite Hol. simpl.
  unfold mbind at 1, M_bind, pure. by rewrite Hn.
Qed.

(** *** Indexing the links of an org *)

Lemma org_links_getitem_same org key :
  same_but_for_empty key org (org_links_getitem org key).1.
Proof.
  unfold same_but_for_empty, org_links_getitem, defaultdict_getitem.
  destruct (Org.links org) as [| s | d] eqn:E; simpl; try by rewrite E.
  destruct (d !! key); simpl; repeat split; done.
Qed.

Lemma org_links_getitem_stored org key d :
  Org.links org = LinksIndex d ->
  (org_links_getitem org key).2 = Ok (stored d key).
Proof.
  intros E. unfold org_links_getitem, defaultdict_getitem, stored.
  rewrite E. by destruct (d !! key).
Qed.

Lemma same_but_for_empty_keeps key org org' :
  same_but_for_empty key org org' -> keeps_sequences org org'.
Proof.
  intros (_&_&_&_&_&_&H). unfold keeps_sequences.
  destruct (Org.links org) as [| s | d]; rewrite H; try done.
  intros k. unfold stored. destruct (d !! key) eqn:E; [done|].
  destruct (decide (key = k)) as [<-|Hne].
  - by rewrite lookup_insert_eq, E.
  - by rewrite lookup_insert_ne.
Qed.

Lemma same_but_for_empty_present key org org' d :
  same_but_for_empty key org org' ->
  Org.links org = LinksIndex d -> is_Some (d !! key) -> org' = org.
Proof.
  intros (?&?&?&?&?&?&H) E [v Hv]. rewrite E, Hv in H.
  destruct org, org'; simpl in *; congruence.
Qed.

Lemma org_nets_org self org w :
  (org_nets request self org w).1.2 =
  (org_links_getitem org "application/vnd.vmware.vcloud.orgNetwork+xml").1.
Proof.
  unfold org_nets. destruct (org_links_getitem org _) as [org' [ls|e]]; [|done].
  by destruct (links_loop _ _ _ _ _ w).
Qed.

Lemma org_vdcs_org self org w :
  (org_vdcs request self org w).1.2 =
  (org_links_getitem org "application/vnd.vmware.vcloud.vdc+xml").1.
Proof.
  unfold org_vdcs. destruct (org_links_getitem org _) as [org' [ls|e]]; [|done].
  by destruct (links_loop _ _ _ _ _ w).
Qed.

Lemma org_vapps_org self org w :
  (org_vapps request self org w).1.2 = (org_vdcs request self org w).1.2.
Proof.
  unfold org_vapps. by destruct (org_vdcs request self org w) as [[w' org'] [?|?]].
Qed.

(** C3, as the code has it.  [org_nets], [org_vdcs] and [org_vapps] leave
    every field of the org as it was except the link index, and the
    sequence held for every media type as it was; the one change they can
    make is to add the media type they look up, with an empty sequence,
    to an index that had no entry for it.  An org whose index has the
    entry is left unchanged. *)
Theorem accessors_change_to_org (self : VCloudAPIClient) (org : Org.t)
  (w : World) :
  let after_nets := (org_nets request self org w).1.2 in
  let after_vdcs := (org_vdcs request self org w).1.2 in
  let after_vapps := (org_vapps request self org w).1.2 in
  (same_but_for_empty "application/vnd.vmware.vcloud.orgNetwork+xml"
     org after_nets /\
   same_but_for_empty "application/vnd.vmware.vcloud.vdc+xml" org after_vdcs /\
   same_but_for_empty "application/vnd.vmware.vcloud.vdc+xml" org after_vapps) /\
  (keeps_sequences org after_nets /\ keeps_sequences org after_vdcs /\
   keeps_sequences org after_vapps) /\
  (forall d,
     Org.links org = LinksIndex d ->
     (is_Some (d !! "application/vnd.vmware.vcloud.orgNetwork+xml") ->
      after_nets = org) /\
     (is_Some (d !! "application/vnd.vmware.vcloud.vdc+xml") ->
      after_vdcs = org /\ after_vapps = org)).
Proof.
  intros after_nets after_vdcs after_vapps.
  assert (Hn : same_but_for_empty
                 "application/vnd.vmware.vcloud.orgNetwork+xml" org after_nets).
  { unfold after_nets. rewrite org_nets_org. apply org_links_getitem_same. }
  assert (Hv : same_but_for_empty
                 "application/vnd.vmware.vcloud.vdc+xml" org after_vdcs).
  { unfold after_vdcs. rewrite org_vdcs_org. apply org_links_getitem_same. }
  assert (Ha : after_vapps = after_vdcs) by apply org_vapps_org.
  rewrite Ha. split; [done|]. split.
  - repeat split; by eapply same_but_for_empty_keeps.
  - intros d E. split; intros Hk; [|split];
      by eapply same_but_for_empty_present.
Qed.

(** *** One record per link *)

Lemma links_loop_Ok {A} (decode : Element -> result A) self ls acc w w' xs :
  links_loop request self decode ls acc w = (w', Ok xs) <->
  exists ys, xs = acc ++ ys /\ fetched request decode self w ls w' ys.
Proof.
  revert acc w. induction ls as [|l ls IH]; intros acc w; simpl.
  - split.
    + intros [= <- <-]. exists []. split; [by rewrite app_nil_r|constructor].
    + intros (ys & -> & H). inversion H; subst. by rewrite app_nil_r.
  - unfold mbind, M_bind.
    destruct (get_and_parse request self (Link.href l) decode w)
      as [w1 [x|e]] eqn:E.
    + rewrite IH. split.
      * intros (ys & -> & H). exists (x :: ys).
        split; [by rewrite <- app_assoc|]. by econstructor.
      * intros (ys & -> & H).
        inversion H as [|? w1' ? ? ? x' ys' Hx Hys]; subst.
        rewrite E in Hx. injection Hx as <- <-.
        exists ys'. split; [by rewrite <- app_assoc|done].
    + split; [discriminate|].
      intros (ys & _ & H). inversion H; subst. congruence.
Qed.

Lemma fetched_length {A} (decode : Element -> result A) self w ls w' xs :
  fetched request decode self w ls w' xs -> length xs = length ls.
Proof. induction 1; simpl; congruence. Qed.

(** C9. For an org with a link index, [org_nets] and [org_vdcs] return
    the empty list, without sending anything, when the index has no entry
    for their media type; and they return a list exactly when a GET of
    each link of that type, taken in the order of the index, succeeds and
    decodes: the list then holds the decoded records, one per link and in
    the order of the links. *)
Theorem org_nets_vdcs_follow_links (self : VCloudAPIClient) (org : Org.t)
  (idx : gmap string (list Link.t)) (w : World) :
  Org.links org = LinksIndex idx ->
  (idx !! "application/vnd.vmware.vcloud.orgNetwork+xml" = None ->
   exists org', org_nets request self org w = (w, org', Ok [])) /\
  (idx !! "application/vnd.vmware.vcloud.vdc+xml" = None ->
   exists org', org_vdcs request self org w = (w, org', Ok [])) /\
  (forall w' nets,
     (exists org', org_nets request self org w = (w', org', Ok nets)) <->
     fetched request _parse_org_nets self w
       (stored idx "application/vnd.vmware.vcloud.orgNetwork+xml") w' nets) /\
  (forall w' vdcs,
     (exists org', org_vdcs request self org w = (w', org', Ok vdcs)) <->
     fetched request _parse_org_vdcs self w
       (stored idx "application/vnd.vmware.vcloud.vdc+xml") w' vdcs) /\
  (forall w' org' nets,
     org_nets request self org w = (w', org', Ok nets) ->
     length nets =
     length (stored idx "application/vnd.vmware.vcloud.orgNetwork+xml")) /\
  (forall w' org' vdcs,
     org_vdcs request self org w = (w', org', Ok vdcs) ->
     length vdcs = length (stored idx "application/vnd.vmware.vcloud.vdc+xml")).
Proof.
  intros E.
  assert (Hnets : forall w' nets,
    (exists org', org_nets request self org w = (w', org', Ok nets)) <->
    fetched request _parse_org_nets self w
      (stored idx "application/vnd.vmware.vcloud.orgNetwork+xml") w' nets).
  { intros w' nets. unfold org_nets.
    pose proof (org_links_getitem_stored org
      "application/vnd.vmware.vcloud.orgNetwork+xml" idx E) as Hs.
    destruct (org_links_getitem org _) as [org1 r]. simpl in Hs. subst r.
    destruct (links_loop _ _ _ _ _ w) as [w2 r] eqn:El. split.
    - intros (org' & [= -> _ ->]). apply links_loop_Ok in El as (ys & -> & H).
      done.
    - intros H. assert (El' : links_loop request self _parse_org_nets
        (stored idx "application/vnd.vmware.vcloud.orgNetwork+xml") [] w
        = (w', Ok nets)) by (apply links_loop_Ok; eauto).
      rewrite El in El'. injection El' as -> ->. eauto. }
  assert (Hvdcs : forall w' vdcs,
    (exists org', org_vdcs request self org w = (w', org', Ok vdcs)) <->
    fetched request _parse_org_vdcs self w
      (stored idx "application/vnd.vmware.vcloud.vdc+xml") w' vdcs).
  { intros w' vdcs. unfold org_vdcs.
    pose proof (org_links_getitem_stored org
      "application/vnd.vmware.vcloud.vdc+xml" idx E) as Hs.
    destruct (org_links_getitem org _) as [org1 r]. simpl in Hs. subst r.
    destruct (links_loop _ _ _ _ _ w) as [w2 r] eqn:El. split.
    - intros (org' & [= -> _ ->]). apply links_loop_Ok in El as (ys & -> & H).
      done.
    - intros H. assert (El' : links_loop request self _parse_org_vdcs
        (stored idx "application/vnd.vmware.vcloud.vdc+xml") [] w
        = (w', Ok vdcs)) by (apply links_loop_Ok; eauto).
      rewrite El in El'. injection El' as -> ->. eauto. }
  split; [|split; [|split; [exact Hnets|split; [exact Hvdcs|split]]]].
  - intros Hk. apply Hnets. unfold stored. rewrite Hk. constructor.
  - intros Hk. apply Hvdcs. unfold stored. rewrite Hk. constructor.
  - intros w' org' nets H. eapply fetched_length, Hnets. eauto.
  - intros w' org' vdcs H. eapply fetched_length, Hvdcs. eauto.
Qed.

End Accessors.

(** ** The statements at concrete documents and servers *)

(** C7 on [parsed_orglist]: of the two orgs called [Acme] the first is
    returned, and no org is called [ACME]. *)
Lemma by_name_first_exact_match_witness :
  OrgList.org_by_name Scenario.parsed_orglist "Acme"
  = Some (Org.mk Scenario.org_type "https://vc/api/org/1" "Acme" None None
            None LinksNone) /\
  OrgList.org_by_name Scenario.parsed_orglist "ACME" = None.
Proof.
  destruct by_name_first_exact_match as (_ & HSome & HNone & _).
  split.
  - apply HSome. exists []. eexists. repeat split. constructor.
  - apply HNone. repeat constructor; discriminate.
Defined.

(** C8 on [session_doc], on [vdc_doc] and on [acme_doc], which has no
    [Link] child. *)
Lemma index_groups_in_document_order_witness :
  (_parse_links Scenario.session_doc = Ok Scenario.session_links /\
   exists ls,
     Forall2 (fun c l => _parse_link c = Ok l /\
                         attrib c !! "type" = Some (Link.type l))
       (findall Scenario.session_doc "Link") ls /\
     forall k,
       Scenario.session_links !! k = same_typed Link.type ls k /\
       stored Scenario.session_links k = filter (fun l => Link.type l = k) ls) /\
  (_parse_resource_entities Scenario.vdc_doc = Ok Scenario.vdc_entity_index /\
   exists box es,
     find Scenario.vdc_doc "ResourceEntities" = Some box /\
     Forall2 (fun c re => _parse_resource_entity c = Ok re /\
                          attrib c !! "type" = Some (ResourceEntity.type re))
       (findall box "ResourceEntity") es /\
     forall k,
       Scenario.vdc_entity_index !! k = same_typed ResourceEntity.type es k /\
       stored Scenario.vdc_entity_index k
       = filter (fun re => ResourceEntity.type re = k) es) /\
  _parse_links Scenario.acme_doc = Ok ∅.
Proof.
  split; [|split].
  - assert (H : _parse_links Scenario.session_doc = Ok Scenario.session_links)
      by (vm_compute; reflexivity).
    split; [exact H|].
    exact (proj1 (proj1 (index_groups_in_document_order Scenario.session_doc)
                    Scenario.session_links) H).
  - assert (H : _parse_resource_entities Scenario.vdc_doc
                = Ok Scenario.vdc_entity_index)
      by (vm_compute; reflexivity).
    split; [exact H|].
    exact (proj1 (proj2 (index_groups_in_document_order Scenario.vdc_doc)
                    Scenario.vdc_entity_index) H).
  - apply (proj2 (proj1 (index_groups_in_document_order Scenario.acme_doc) ∅)).
    exists []. split.
    + change (findall Scenario.acme_doc "Link") with (@nil Element).
      constructor.
    + intros k. split; [apply lookup_empty|]. unfold stored.
      by rewrite lookup_empty.
Defined.

(** C4 on [client]: of the two org-list links of [session_doc] the first
    one's [href] is returned. *)
Lemma lookup_first_link_witness :
  _lookup Scenario.client "vcloud.orgList" = Ok "https://vc/api/org/" /\
  exists ls l rest,
    Forall2 (fun c l => _parse_link c = Ok l)
      (findall Scenario.session_doc "Link") ls /\
    filter (fun l => Link.type l
                     = "application/vnd.vmware." +:+ "vcloud.orgList" +:+ "+xml")
      ls = l :: rest /\
    _lookup Scenario.client "vcloud.orgList" = Ok (Link.href l).
Proof.
  destruct (lookup_first_link Scenario.client "vcloud.orgList") as [Ha Hb].
  split.
  - apply (Ha Scenario.session_links
             (Link.mk Scenario.orgList_type "https://vc/api/org/" "down" None)
             [Link.mk Scenario.orgList_type "https://vc/api/org2/" "down" None]).
    + reflexivity.
    + vm_compute. reflexivity.
  - apply (Hb Scenario.session_doc Scenario.session_links).
    + vm_compute. reflexivity.
    + reflexivity.
    + vm_compute. eauto.
Defined.

(** C5 on [blind_client]. *)
Lemma lookup_unknown_type_witness :
  exists e,
    _lookup Scenario.blind_client "vcloud.orgList" = Raise e /\
    e = APIError
          (Message ("Don't know anything about type '" +:+ "vcloud.orgList"
                    +:+ "'")) /\
    class_name e = "APIError".
Proof.
  apply (lookup_unknown_type Scenario.blind_client "vcloud.orgList" ∅).
  - reflexivity.
  - reflexivity.
Defined.

(** The claim C5 fails on [blind_client]: the exception is an [APIError],
    the class of the HTTP status errors, and not a [LookupError]. *)
Lemma lookup_unknown_type_is_APIError :
  _lookup Scenario.blind_client "vcloud.orgList"
  = Raise (APIError
             (Message "Don't know anything about type 'vcloud.orgList'")) /\
  class_name
    (APIError (Message "Don't know anything about type 'vcloud.orgList'"))
  <> "LookupError" /\
  class_name
    (APIError (Message "Don't know anything about type 'vcloud.orgList'"))
  = class_name
      (APIError (Caught (HTTPError (Response.mk 404 ∅ None)))).
Proof.
  split; [reflexivity|]. split; [discriminate|reflexivity].
Qed.

(** C6 on [client] and the server [routes]: a 404 becomes an [APIError]
    that carries the response, and the same request without [_raise]
    returns it. *)
Lemma req_outcomes_witness :
  let res := Response.mk 404 ∅ (Some Scenario.session_doc) in
  _req (Scenario.server Scenario.routes) Scenario.client "get"
    "https://vc/api/missing" false None []
  = ([Scenario.get "https://vc/api/missing"], Ok res) /\
  _req (Scenario.server Scenario.routes) Scenario.client "get"
    "https://vc/api/missing" true None []
  = ([Scenario.get "https://vc/api/missing"],
     Raise (APIError (Caught (HTTPError res)))).
Proof.
  exact (req_outcomes (Scenario.server Scenario.routes) Scenario.client "get"
           "https://vc/api/missing" None [] _ _ eq_refl).
Defined.

(** The claim C6 fails on [client] and the server [routes]: with [_raise]
    set, a 304 response is returned as it is, and the [ConnectionError] of
    a request that cannot be sent leaves [_req] unwrapped. *)
Lemma req_returns_304_and_lets_ConnectionError_out :
  (_req (Scenario.server Scenario.routes) Scenario.client "get"
     "https://vc/api/cached" true None []).2
  = Ok (Response.mk 304 ∅ (Some Scenario.session_doc)) /\
  (_req (Scenario.server Scenario.routes) Scenario.client "get"
     "https://vc/api/nowhere" true None []).2
  = Raise (Requests ConnectionError) /\
  class_name (Requests ConnectionError) <> "APIError".
Proof.
  split; [vm_compute; reflexivity|]. split; [vm_compute; reflexivity|].
  discriminate.
Qed.

(** C10 on a client built with no token in the environment: the header is
    there and holds [None]. *)
Lemma token_always_in_header_witness :
  __init__ Scenario.unauthorized ∅ (Some "https://vc/api") tt
  = (tt, Ok Scenario.anonymous_client) /\
  session_headers Scenario.anonymous_client !! "x-vcloud-authorization"
  = Some None /\
  token Scenario.anonymous_client = None /\
  token_in_header
    (login Scenario.unauthorized Scenario.anonymous_client "admin" "hunter2"
       tt).1.2.
Proof.
  destruct (token_always_in_header Scenario.unauthorized)
    as (Hset & Hinit & Hlogin).
  assert (H : __init__ Scenario.unauthorized ∅ (Some "https://vc/api") tt
              = (tt, Ok Scenario.anonymous_client))
    by (vm_compute; reflexivity).
  split; [exact H|].
  split; [exact (proj1 (Hinit _ _ _ _ _ H))|].
  split; [exact (proj2 (Hinit _ _ _ _ _ H))|].
  apply (Hlogin Scenario.anonymous_client "admin" "hunter2" tt tt
           Scenario.anonymous_client
           (Raise (APIError (Caught (HTTPError (Response.mk 401 ∅ None)))))).
  - vm_compute. reflexivity.
  - left. exact (proj1 (Hinit _ _ _ _ _ H)).
Defined.

(** C1 on [client] and the server [routes]: asking for an org that the
    list does not have sends the GET of the list and nothing else. *)
Lemma org_absent_name_witness :
  org_list (Scenario.server Scenario.routes) Scenario.client []
  = ([Scenario.get "https://vc/api/org/"], Ok Scenario.parsed_orglist) /\
  OrgList.org_by_name Scenario.parsed_orglist "Ghost" = None /\
  exists e,
    org (Scenario.server Scenario.routes) Scenario.client "Ghost" []
    = ([Scenario.get "https://vc/api/org/"], Raise e) /\
    e = AttributeError "'NoneType' object has no attribute 'href'" /\
    class_name e = "AttributeError".
Proof.
  assert (H1 : org_list (Scenario.server Scenario.routes) Scenario.client []
               = ([Scenario.get "https://vc/api/org/"],
                  Ok Scenario.parsed_orglist))
    by (vm_compute; reflexivity).
  assert (H2 : OrgList.org_by_name Scenario.parsed_orglist "Ghost" = None)
    by reflexivity.
  split; [exact H1|]. split; [exact H2|].
  exact (org_absent_name (Scenario.server Scenario.routes) Scenario.client
           "Ghost" [] _ _ H1 H2).
Defined.

(** The claim C1 fails on [client] and the server [routes]: the exception
    that [org] raises for a name that the list does not have is an
    [AttributeError], not a [NotFoundError]. *)
Lemma org_absent_name_is_AttributeError :
  (org (Scenario.server Scenario.routes) Scenario.client "Ghost" []).2
  = Raise (AttributeError "'NoneType' object has no attribute 'href'") /\
  class_name (AttributeError "'NoneType' object has no attribute 'href'")
  <> "NotFoundError".
Proof.
  split; [vm_compute; reflexivity|discriminate].
Qed.

(** C2 on [acme_doc] and [extnet_doc]: the empty [Description] of the org
    and the missing [Configuration] of the network give [None]. *)
Lemma full_decoders_requirements_witness :
  is_Ok (_parse_org Scenario.acme_doc) /\
  is_Ok (_parse_ext_net Scenario.extnet_doc) /\
  (forall o,
     _parse_org Scenario.acme_doc = Ok o ->
     Org.id o = Some "urn:vcloud:org:1" /\
     Org.full_name o = Some "Acme Corp" /\ Org.description o = None) /\
  (forall en,
     _parse_ext_net Scenario.extnet_doc = Ok en ->
     ExtNet.id en = Some "urn:vcloud:network:7" /\
     ExtNet.description en = Some "provider uplink" /\
     ExtNet.config en = ConfigNone).
Proof.
  destruct (full_decoders_requirements Scenario.acme_doc)
    as (Horg & _ & Horg' & _).
  destruct (full_decoders_requirements Scenario.extnet_doc)
    as (_ & Hnet & _ & Hnet').
  split; [|split; [|split]].
  - apply Horg. split; [|split; [|split]].
    + repeat constructor; vm_compute; eauto.
    + vm_compute; eauto.
    + vm_compute; eauto.
    + eexists. vm_compute. reflexivity.
  - apply Hnet. split; [|split].
    + repeat constructor; vm_compute; eauto.
    + vm_compute; eauto.
    + eexists. vm_compute. reflexivity.
  - exact Horg'.
  - exact Hnet'.
Defined.

(** The claim C2 fails on [acme_without_id]: the element has [type],
    [href] and [name], lacks only [id], and [_parse_org] fails on it. *)
Lemma parse_org_fails_without_id :
  is_Some (attrib Scenario.acme_without_id !! "type") /\
  is_Some (attrib Scenario.acme_without_id !! "href") /\
  is_Some (attrib Scenario.acme_without_id !! "name") /\
  _parse_org Scenario.acme_without_id = Raise (KeyError "id").
Proof.
  repeat split; vm_compute; eauto.
Qed.

(** C3 on [networked_org] and [bare_org]: the org that has network links
    is left as it was, and the one without gains nothing but empty
    entries. *)
Lemma accessors_change_to_org_witness :
  (org_nets (Scenario.server Scenario.routes) Scenario.client
     Scenario.networked_org []).1.2 = Scenario.networked_org /\
  keeps_sequences Scenario.bare_org
    (org_vapps (Scenario.server Scenario.routes) Scenario.client
       Scenario.bare_org []).1.2.
Proof.
  destruct (accessors_change_to_org (Scenario.server Scenario.routes)
              Scenario.client Scenario.networked_org []) as (_ & _ & Hsame).
  destruct (accessors_change_to_org (Scenario.server Scenario.routes)
              Scenario.client Scenario.bare_org []) as (_ & (_ & _ & Hk) & _).
  split; [|exact Hk].
  apply (Hsame {[ Scenario.orgNetwork_type := Scenario.net_links ]}).
  - reflexivity.
  - vm_compute. eauto.
Defined.

(** The claim C3 fails on [bare_org]: [org_nets] returns no network and
    leaves the link index of the org, which was empty, with an entry. *)
Lemma org_nets_adds_entry_to_index :
  Org.links Scenario.bare_org = LinksIndex ∅ /\
  Org.links (org_nets (Scenario.server Scenario.routes) Scenario.client
               Scenario.bare_org []).1.2
  = LinksIndex {[ "application/vnd.vmware.vcloud.orgNetwork+xml" := [] ]} /\
  (org_nets (Scenario.server Scenario.routes) Scenario.client
     Scenario.bare_org []).1.2 <> Scenario.bare_org.
Proof.
  split; [reflexivity|]. split; [vm_compute; reflexivity|].
  intros H.
  apply (f_equal (fun o => match Org.links o with
                           | LinksIndex d =>
                               d !! "application/vnd.vmware.vcloud.orgNetwork+xml"
                           | _ => None
                           end)) in H.
  vm_compute in H. discriminate.
Qed.

(** C9 on [bare_org] and [networked_org]. *)
Lemma org_nets_vdcs_follow_links_witness :
  (exists org',
     org_nets (Scenario.server Scenario.routes) Scenario.client
       Scenario.bare_org [] = ([], org', Ok [])) /\
  (exists org',
     org_vdcs (Scenario.server Scenario.routes) Scenario.client
       Scenario.networked_org [] = ([], org', Ok [])) /\
  fetched (Scenario.server Scenario.routes) _parse_org_nets Scenario.client []
    Scenario.net_links
    [Scenario.get "https://vc/api/network/1";
     Scenario.get "https://vc/api/network/2"]
    [Scenario.parsed_net "front"; Scenario.parsed_net "back"].
Proof.
  destruct (org_nets_vdcs_follow_links (Scenario.server Scenario.routes)
              Scenario.client Scenario.bare_org ∅ [] eq_refl) as (Hn & _).
  destruct (org_nets_vdcs_follow_links (Scenario.server Scenario.routes)
              Scenario.client Scenario.networked_org
              {[ Scenario.orgNetwork_type := Scenario.net_links ]} [] eq_refl)
    as (_ & Hv & Hf & _).
  split; [|split].
  - apply Hn. reflexivity.
  - apply Hv. vm_compute. reflexivity.
  - apply Hf. eexists. vm_compute. reflexivity.
Defined.

(** * Further properties of the decoders and of the client *)

(** ** Keyword-argument decoders *)

Lemma kwargs_ok_spec params kw :
  kwargs_ok params kw = true <->
  forall a, is_Some (kw !! a) -> a ∈ params.
Proof.
  unfold kwargs_ok. rewrite bool_decide_eq_true. split.
  - intros H a Ha. apply elem_of_dom in Ha. apply H in Ha.
    by apply elem_of_list_to_set in Ha.
  - intros H a Ha. apply elem_of_list_to_set. apply H. by apply elem_of_dom.
Qed.

(** X1. [_parse_link] returns a link exactly when every attribute of the
    element is one of [type], [href], [rel], [name] and the first three
    are there; the fields are those attributes and [name] is [None] when
    the element has none.  [_parse_resource_entity] is the same with
    [type], [href], [name], of which the first two are required. *)
Theorem parse_link_accepts (el : Element) :
  (forall l,
     _parse_link el = Ok l <->
     (forall a, is_Some (attrib el !! a) -> a ∈ ["type"; "href"; "rel"; "name"]) /\
     attrib el !! "type" = Some (Link.type l) /\
     attrib el !! "href" = Some (Link.href l) /\
     attrib el !! "rel" = Some (Link.rel l) /\
     attrib el !! "name" = Link.name l) /\
  (forall re,
     _parse_resource_entity el = Ok re <->
     (forall a, is_Some (attrib el !! a) -> a ∈ ["type"; "href"; "name"]) /\
     attrib el !! "type" = Some (ResourceEntity.type re) /\
     attrib el !! "href" = Some (ResourceEntity.href re) /\
     attrib el !! "name" = ResourceEntity.name re).
Proof.
  split.
  - intros l. unfold _parse_link. rewrite <- kwargs_ok_spec.
    destruct (kwargs_ok _ _); [|split; [discriminate|intros [[=] _]]].
    destruct (attrib el !! "type") as [t|];
      [|split; [discriminate|intros (_&[=]&_)]].
    destruct (attrib el !! "href") as [h|];
      [|split; [discriminate|intros (_&_&[=]&_)]].
    destruct (attrib el !! "rel") as [r|];
      [|split; [discriminate|intros (_&_&_&[=]&_)]].
    split.
    + by intros [= <-].
    + intros (_&[= ->]&[= ->]&[= ->]&->). by destruct l.
  - intros re. unfold _parse_resource_entity. rewrite <- kwargs_ok_spec.
    destruct (kwargs_ok _ _); [|split; [discriminate|intros [[=] _]]].
    destruct (attrib el !! "type") as [t|];
      [|split; [discriminate|intros (_&[=]&_)]].
    destruct (attrib el !! "href") as [h|];
      [|split; [discriminate|intros (_&_&[=]&_)]].
    split.
    + by intros [= <-].
    + intros (_&[= ->]&[= ->]&->). by destruct re.
Qed.

(** X2. The summary decoders [_parse_org_short] and
    [_parse_ext_net_short] need [type], [href] and [name] only: [id] and
    the other named attributes are copied when they are there and are
    [None] otherwise; an attribute that is not the name of a field makes
    them fail with [TypeError]. *)
Theorem summary_decoders_accept (el : Element) :
  (forall o,
     _parse_org_short el = Ok o <->
     (forall a, is_Some (attrib el !! a) ->
                a ∈ ["type"; "href"; "name"; "id"; "full_name"; "description";
                     "links"]) /\
     attrib el !! "type" = Some (Org.type o) /\
     attrib el !! "href" = Some (Org.href o) /\
     attrib el !! "name" = Some (Org.name o) /\
     attrib el !! "id" = Org.id o /\
     attrib el !! "full_name" = Org.full_name o /\
     attrib el !! "description" = Org.description o /\
     links_of_kwarg (attrib el !! "links") = Org.links o) /\
  (forall en,
     _parse_ext_net_short el = Ok en <->
     (forall a, is_Some (attrib el !! a) ->
                a ∈ ["type"; "href"; "name"; "config"; "id"; "description";
                     "links"]) /\
     attrib el !! "type" = Some (ExtNet.type en) /\
     attrib el !! "href" = Some (ExtNet.href en) /\
     attrib el !! "name" = Some (ExtNet.name en) /\
     config_of_kwarg (attrib el !! "config") = ExtNet.config en /\
     attrib el !! "id" = ExtNet.id en /\
     attrib el !! "description" = ExtNet.description en /\
     links_of_kwarg (attrib el !! "links") = ExtNet.links en) /\
  (forall a,
     is_Some (attrib el !! a) ->
     a ∉ ["type"; "href"; "name"; "id"; "full_name"; "description"; "links"] ->
     exists msg, _parse_org_short el = Raise (TypeError msg)) /\
  (forall a,
     is_Some (attrib el !! a) ->
     a ∉ ["type"; "href"; "name"; "config"; "id"; "description"; "links"] ->
     exists msg, _parse_ext_net_short el = Raise (TypeError msg)).
Proof.
  split; [|split; [|split]].
  - intros o. unfold _parse_org_short. rewrite <- kwargs_ok_spec.
    destruct (kwargs_ok _ _); [|split; [discriminate|intros [[=] _]]].
    destruct (attrib el !! "type") as [t|];
      [|split; [discriminate|intros (_&[=]&_)]].
    destruct (attrib el !! "href") as [h|];
      [|split; [discriminate|intros (_&_&[=]&_)]].
    destruct (attrib el !! "name") as [n|];
      [|split; [discriminate|intros (_&_&_&[=]&_)]].
    split.
    + by intros [= <-].
    + intros (_&[= ->]&[= ->]&[= ->]&->&->&->&->). by destruct o.
  - intros en. unfold _parse_ext_net_short. rewrite <- kwargs_ok_spec.
    destruct (kwargs_ok _ _); [|split; [discriminate|intros [[=] _]]].
    destruct (attrib el !! "type") as [t|];
      [|split; [discriminate|intros (_&[=]&_)]].
    destruct (attrib el !! "href") as [h|];
      [|split; [discriminate|intros (_&_&[=]&_)]].
    destruct (attrib el !! "name") as [n|];
      [|split; [discriminate|intros (_&_&_&[=]&_)]].
    split.
    + by intros [= <-].
    + intros (_&[= ->]&[= ->]&[= ->]&->&->&->&->). by destruct en.
  - intros a Ha Hn. unfold _parse_org_short.
    destruct (kwargs_ok _ _) eqn:E; [|by eexists].
    exfalso. apply Hn. by apply (proj1 (kwargs_ok_spec _ _) E).
  - intros a Ha Hn. unfold _parse_ext_net_short.
    destruct (kwargs_ok _ _) eqn:E; [|by eexists].
    exfalso. apply Hn. by apply (proj1 (kwargs_ok_spec _ _) E).
Qed.

(** ** Link indices *)

(** The first exception of a loop that decodes the children in turn. *)
Lemma _parse_links_loop_Raise cs res e :
  _parse_links_loop cs res = Raise e <->
  exists before c after,
    cs = before ++ c :: after /\
    Forall (fun c' => is_Ok (_parse_link c')) before /\
    _parse_link c = Raise e.
Proof.
  revert res. induction cs as [|c cs IH]; intros res; simpl.
  - split; [discriminate|]. intros (before & c & after & E & _).
    destruct before; discriminate.
  - destruct (_parse_link c) as [l|e'] eqn:E; simpl.
    + rewrite IH. split.
      * intros (before & c' & after & -> & Hb & Hc).
        exists (c :: before), c', after. split; [done|]. split; [|done].
        constructor; [by exists l|done].
      * intros (before & c' & after & Hcs & Hb & Hc).
        destruct before as [|b before]; simpl in Hcs.
        -- injection Hcs as <- <-. congruence.
        -- injection Hcs as <- ->. inversion Hb; subst.
           by exists before, c', after.
    + split.
      * intros [= <-]. exists [], c, cs. split; [done|]. split; [constructor|done].
      * intros (before & c' & after & Hcs & Hb & Hc).
        destruct before as [|b before]; simpl in Hcs.
        -- injection Hcs as <- <-. congruence.
        -- injection Hcs as <- ->. inversion Hb as [|? ? [l Hl] ?]; subst.
           congruence.
Qed.

Lemma _parse_link_Raise c e :
  _parse_link c = Raise e -> class_name e = "TypeError".
Proof.
  unfold _parse_link. destruct (kwargs_ok _ _); [|by intros [= <-]].
  destruct (attrib c !! "type"), (attrib c !! "href"), (attrib c !! "rel");
    try discriminate; by intros [= <-].
Qed.

(** X3. [_parse_links] builds an index exactly when every [Link] child
    decodes.  When one does not, it builds nothing and raises a
    [TypeError], the exception of a constructor called with wrong keyword
    arguments.  Children with another tag play no part, so an element
    without [Link] children gives the empty index. *)
Theorem parse_links_all_or_nothing (el : Element) :
  (is_Ok (_parse_links el) <->
   Forall (fun c => is_Ok (_parse_link c)) (findall el "Link")) /\
  (forall e,
     _parse_links el = Raise e ->
     class_name e = "TypeError" /\
     Exists (fun c => ~ is_Ok (_parse_link c)) (findall el "Link")) /\
  (Exists (fun c => ~ is_Ok (_parse_link c)) (findall el "Link") ->
   exists e, _parse_links el = Raise e /\ class_name e = "TypeError") /\
  (findall el "Link" = [] -> _parse_links el = Ok ∅).
Proof.
  assert (Hok : is_Ok (_parse_links el) <->
                Forall (fun c => is_Ok (_parse_link c)) (findall el "Link")).
  { split.
    - intros [idx H]. apply _parse_links_Ok in H as (ls & H & _).
      clear -H. induction H; constructor; [by eexists|done].
    - intros H. destruct (_parse_links el) as [idx|e] eqn:E; [by eexists|].
      apply _parse_links_loop_Raise in E as (before & c & after & Hcs & _ & Hc).
      rewrite Hcs in H. apply Forall_app in H as [_ H].
      inversion H as [|? ? [l Hl] ?]; subst. congruence. }
  assert (Hraise : forall e,
            _parse_links el = Raise e ->
            class_name e = "TypeError" /\
            Exists (fun c => ~ is_Ok (_parse_link c)) (findall el "Link")).
  { intros e E.
    apply _parse_links_loop_Raise in E as (before & c & after & Hcs & _ & Hc).
    split; [by eapply _parse_link_Raise|].
    rewrite Hcs. apply Exists_app. right. left.
    intros [l Hl]. congruence. }
  split; [exact Hok|]. split; [exact Hraise|]. split.
  - intros Hex. destruct (_parse_links el) as [idx|e] eqn:E.
    + exfalso.
      assert (H : Forall (fun c => is_Ok (_parse_link c)) (findall el "Link"))
        by (apply Hok; by eexists).
      apply Exists_exists in Hex as (c & Hin & Hc).
      rewrite Forall_forall in H. by apply Hc, H.
    + exists e. split; [done|]. by apply (Hraise e).
  - intros H. unfold _parse_links. by rewrite H.
Qed.

(** X4. An index that [_parse_links] has built holds no empty sequence, so
    [_lookup] on it never raises [IndexError]: it returns a URL when the
    type is a key of the index and raises [APIError] otherwise. *)
Theorem lookup_on_parsed_index (self : VCloudAPIClient) (el : Element)
  (idx : gmap string (list Link.t)) :
  _parse_links el = Ok idx ->
  _links self = Some idx ->
  (forall k, idx !! k <> Some []) /\
  (forall typ,
     (is_Some (idx !! full_typ typ) /\ exists url, _lookup self typ = Ok url) \/
     (idx !! full_typ typ = None /\
      _lookup self typ
      = Raise (APIError
                 (Message ("Don't know anything about type '" +:+ typ +:+ "'"))))).
Proof.
  intros Hp Hl. apply _parse_links_Ok in Hp as (ls & _ & Hk).
  assert (Hne : forall k, idx !! k <> Some []).
  { intros k. rewrite Hk. unfold same_typed. by destruct (filter _ ls). }
  split; [done|]. intros typ. unfold _lookup. rewrite Hl.
  destruct (idx !! full_typ typ) as [[|l rest]|] eqn:E.
  - by destruct (Hne (full_typ typ)).
  - left. eauto.
  - right. done.
Qed.

(** ** The list decoders *)

Lemma comprehension_Ok {A B} (f : A -> result B) cs xs :
  comprehension f cs = Ok xs <-> Forall2 (fun c x => f c = Ok x) cs xs.
Proof.
  revert xs. induction cs as [|c cs IH]; intros xs; simpl.
  - split; [intros [= <-]; constructor|]. inversion 1; done.
  - destruct (f c) as [x|e] eqn:E; simpl.
    + destruct (comprehension f cs) as [xs'|e] eqn:E'; simpl.
      * unfold mret, result_ret. split.
        -- intros [= <-]. constructor; [done|]. by apply IH.
        -- inversion 1 as [|? x' ? xs'' Hx Hxs]; subst.
           apply IH in Hxs. congruence.
      * split; [discriminate|].
        inversion 1 as [|? x' ? xs'' Hx Hxs]; subst. by apply IH in Hxs.
    + split; [discriminate|]. inversion 1; congruence.
Qed.

Lemma _parse_org_short_name c o :
  _parse_org_short c = Ok o -> attrib c !! "name" = Some (Org.name o).
Proof.
  unfold _parse_org_short. destruct (kwargs_ok _ _); [|discriminate].
  destruct (attrib c !! "type"), (attrib c !! "href"), (attrib c !! "name");
    try discriminate.
  by intros [= <-].
Qed.

(** X5. [_parse_org_list] returns a list exactly when every [Org] child
    decodes, and the list holds their records, one per child and in
    document order.  Consequently [org_by_name] on the decoded list
    returns the record of the first [Org] child whose [name] attribute is
    the name asked for. *)
Theorem parse_org_list_then_by_name (el : Element) :
  (forall ol,
     _parse_org_list el = Ok ol <->
     Forall2 (fun c o => _parse_org_short c = Ok o) (findall el "Org")
       (OrgList.orgs ol)) /\
  (forall ol,
     _parse_org_list el = Ok ol ->
     forall name o,
       OrgList.org_by_name ol name = Some o <->
       exists before c after,
         findall el "Org" = before ++ c :: after /\
         _parse_org_short c = Ok o /\
         attrib c !! "name" = Some name /\
         Forall (fun c' => attrib c' !! "name" <> Some name) before).
Proof.
  assert (Hlist : forall ol,
     _parse_org_list el = Ok ol <->
     Forall2 (fun c o => _parse_org_short c = Ok o) (findall el "Org")
       (OrgList.orgs ol)).
  { intros ol. unfold _parse_org_list.
    destruct (comprehension _ _) as [orgs|e] eqn:E; simpl.
    - apply comprehension_Ok in E. split.
      + by intros [= <-].
      + intros H. destruct ol as [orgs']. simpl in H. do 2 f_equal.
        clear -E H. revert orgs' H.
        induction E as [|c o cs os Hc _ IH]; intros orgs' H;
          inversion H; subst; [done|]. f_equal; [congruence|by apply IH].
    - split; [discriminate|]. intros H. apply comprehension_Ok in H.
      congruence. }
  split; [exact Hlist|].
  intros ol E. apply Hlist in E.
  intros name o. unfold OrgList.org_by_name.
  rewrite (first_named_Some Org.name OrgList.org_by_name_loop) by done.
  split.
  - intros (ob & oa & Hol & Hn & Hb). rewrite Hol in E.
    apply Forall2_app_inv_r in E as (cb & crest & Hcb & Hcrest & ->).
    inversion Hcrest as [|c ? ca ? Hc Hca]; subst.
    exists cb, c, ca. split; [done|]. split; [done|]. split.
    + by apply _parse_org_short_name in Hc.
    + clear -Hcb Hb. induction Hcb as [|c' o' cs os Hc' _ IH]; [constructor|].
      inversion Hb; subst. constructor; [|by apply IH].
      apply _parse_org_short_name in Hc'. congruence.
  - intros (cb & c & ca & Hcs & Hc & Hn & Hb). rewrite Hcs in E.
    apply Forall2_app_inv_l in E as (ob & orest & Hob & Horest & Hol).
    inversion Horest as [|? o' ? oa Hc' Hoa]; subst.
    assert (o' = o) by congruence. subst o'.
    exists ob, oa. split; [done|]. split.
    + apply _parse_org_short_name in Hc. congruence.
    + clear -Hob Hb. induction Hob as [|c' o' cs os Hc' _ IH]; [constructor|].
      inversion Hb; subst. constructor; [|by apply IH].
      apply _parse_org_short_name in Hc'. congruence.
Qed.

(** X6. [_parse_ext_net_list] looks for the networks in the [Networks]
    child only: without that child it raises [AttributeError], and with
    it the list holds one record per [Network] child of it, in document
    order. *)
Theorem parse_ext_net_list_reads_Networks (el : Element) :
  (find el "Networks" = None ->
   _parse_ext_net_list el
   = Raise (AttributeError "'NoneType' object has no attribute 'findall'")) /\
  (forall enl,
     _parse_ext_net_list el = Ok enl <->
     exists nets,
       find el "Networks" = Some nets /\
       Forall2 (fun c en => _parse_ext_net_short c = Ok en)
         (findall nets "Network") (ExtNetList.ext_nets enl)).
Proof.
  unfold _parse_ext_net_list. split.
  - by intros ->.
  - intros enl. destruct (find el "Networks") as [nets|].
    + destruct (comprehension _ _) as [ens|e] eqn:E; simpl.
      * apply comprehension_Ok in E. split.
        -- intros [= <-]. by exists nets.
        -- intros (nets' & [= <-] & H). destruct enl as [ens']. simpl in H.
           f_equal. f_equal. clear -E H. revert ens' H.
           induction E as [|c en cs ens Hc _ IH]; intros ens' H;
             inversion H; subst; [done|]. f_equal; [congruence|by apply IH].
      * split; [discriminate|]. intros (nets' & [= <-] & H).
        apply comprehension_Ok in H. congruence.
    + split; [discriminate|]. intros (? & [=] & _).
Qed.

(** ** Local names and capacity bags *)

Lemma split_without sep s : has_char sep s = false -> split sep s = [s].
Proof.
  induction s as [|a s IH]; simpl; [done|].
  destruct (Ascii.eqb a sep); [discriminate|].
  intros H. by rewrite (IH H).
Qed.

Lemma split_at_first sep a b :
  has_char sep a = false ->
  split sep (a +:+ String sep b) = a :: split sep b.
Proof.
  induction a as [|c a IH]; simpl.
  - by rewrite Ascii.eqb_refl.
  - destruct (Ascii.eqb c sep); [discriminate|].
    intros H. by rewrite (IH H).
Qed.

Lemma split_with sep s :
  has_char sep s = true -> exists a b rest, split sep s = a :: b :: rest.
Proof.
  induction s as [|c s IH]; simpl; [discriminate|].
  destruct (Ascii.eqb c sep).
  - intros _. destruct (split sep s) as [|b rest] eqn:E; [|by eauto].
    destruct s; simpl in E; [discriminate|].
    destruct (Ascii.eqb _ _); [discriminate|].
    by destruct (split sep s).
  - intros H. destruct (IH H) as (a & b & rest & ->). eauto.
Qed.

Lemma local_name_without k :
  has_char "}" (tag k) = false ->
  local_name k = Raise (IndexError "list index out of range").
Proof. intros H. unfold local_name. by rewrite split_without. Qed.

Lemma local_name_with k : has_char "}" (tag k) = true -> is_Ok (local_name k).
Proof.
  intros H. unfold local_name.
  destruct (split_with _ _ H) as (a & b & rest & ->). by exists b.
Qed.

(** X7. [local_name] returns the part of the tag between its first and
    its second closing brace: for a tag [{ns}x] in which neither [ns] nor
    [x] has a closing brace this is [x], and it is so for every tag that
    [find] and [findall] match.  A tag without a closing brace is the one
    case in which it raises, with [IndexError]. *)
Theorem local_name_of_qualified_tag :
  (forall ns x a t cs,
     has_char "}" ns = false -> has_char "}" x = false ->
     local_name (Elem ("{" +:+ ns +:+ "}" +:+ x) a t cs) = Ok x) /\
  (forall x a t cs,
     has_char "}" x = false -> local_name (Elem (qname x) a t cs) = Ok x) /\
  (forall k,
     has_char "}" (tag k) = false <->
     local_name k = Raise (IndexError "list index out of range")) /\
  (forall k, has_char "}" (tag k) = true <-> is_Ok (local_name k)).
Proof.
  assert (Hq : forall ns x a t cs,
     has_char "}" ns = false -> has_char "}" x = false ->
     local_name (Elem ("{" +:+ ns +:+ "}" +:+ x) a t cs) = Ok x).
  { intros ns x a t cs Hns Hx. unfold local_name. simpl tag.
    change ("{" +:+ ns +:+ "}" +:+ x)
      with (String "{" ns +:+ String "}" x).
    rewrite split_at_first by (simpl; exact Hns).
    by rewrite split_without. }
  pose proof local_name_without as Hno.
  pose proof local_name_with as Hyes.
  split; [exact Hq|]. split; [|split].
  - intros x a t cs Hx. by apply (Hq VCLOUD_NS).
  - intros k. split; [apply Hno|]. intros H.
    destruct (has_char "}" (tag k)) eqn:E; [|done].
    destruct (Hyes k E) as [n Hn]. congruence.
  - intros k. split; [apply Hyes|]. intros [n Hn].
    destruct (has_char "}" (tag k)) eqn:E; [done|].
    rewrite (Hno k E) in Hn. discriminate.
Qed.

Lemma local_name_Ok k n : local_name k = Ok n <-> local_is n k.
Proof.
  unfold local_name, local_is. destruct (split _ _ !! 1%nat); split; congruence.
Qed.

Lemma last_cons_filter {A} (x : A) (l : list A) :
  last (x :: l) = match last l with Some y => Some y | None => Some x end.
Proof.
  revert x. induction l as [|y l IH]; intros x; [done|].
  change (last (x :: y :: l)) with (last (y :: l)). rewrite (IH y).
  by destruct (last l).
Qed.

(** The bag that the loop of [_parse_org_vdcs] leaves, key by key. *)
Lemma storage_loop_lookup ks d m key :
  storage_loop ks d = Ok m ->
  m !! key = match bag_value ks key with Some v => Some v | None => d !! key end.
Proof.
  revert d. induction ks as [|k ks IH]; intros d; simpl.
  - by intros [= <-].
  - destruct (local_name k) as [n|e] eqn:E; [|discriminate]. simpl.
    intros H. rewrite (IH _ H). apply local_name_Ok in E.
    unfold bag_value. rewrite filter_cons.
    destruct (decide (local_is key k)) as [Hk|Hk].
    + rewrite last_cons_filter.
      destruct (last (filter (local_is key) ks)); simpl; [done|].
      unfold local_is in E, Hk. rewrite E in Hk. injection Hk as ->.
      by rewrite lookup_insert_eq.
    + destruct (last (filter (local_is key) ks)); simpl; [done|].
      rewrite lookup_insert_ne; [done|].
      intros ->. by apply Hk.
Qed.

Lemma storage_loop_is_Ok ks d :
  is_Ok (storage_loop ks d) <->
  Forall (fun k => has_char "}" (tag k) = true) ks.
Proof.
  revert d. induction ks as [|k ks IH]; intros d; simpl.
  - split; [constructor|]. by eexists.
  - destruct (local_name k) as [n|e] eqn:E; simpl.
    + rewrite IH. split.
      * intros H. constructor; [|done].
        destruct (has_char "}" (tag k)) eqn:Hc; [done|].
        rewrite (local_name_without k Hc) in E. discriminate.
      * by inversion 1.
    + split; [intros [? [=]]|]. inversion 1 as [|? ? Hk _]; subst.
      apply local_name_with in Hk as [n Hn]. congruence.
Qed.

Lemma storage_loop_bag ks m :
  storage_loop ks ∅ = Ok m -> forall key, m !! key = bag_value ks key.
Proof.
  intros H key. rewrite (storage_loop_lookup _ _ _ key H), lookup_empty.
  by destruct (bag_value ks key).
Qed.

(** X8. A capacity bag is decoded exactly when every child's tag has a
    closing brace.  It then maps each local name that occurs among the
    children to the text of the last child of that name, left as text
    ([None] for an empty child), and has no other key. *)
Theorem capacity_bag_last_wins (ks : list Element) :
  (is_Ok (storage_loop ks ∅) <->
   Forall (fun k => has_char "}" (tag k) = true) ks) /\
  (forall m,
     storage_loop ks ∅ = Ok m ->
     (forall key, m !! key = text <$> last (filter (local_is key) ks)) /\
     (forall key, is_Some (m !! key) <-> Exists (local_is key) ks)).
Proof.
  split; [apply storage_loop_is_Ok|].
  intros m H.
  pose proof (storage_loop_bag ks m H) as Hk.
  split; [exact Hk|]. intros key. rewrite Hk. unfold bag_value.
  rewrite fmap_is_Some, last_is_Some. split.
  - intros Hne. destruct (filter (local_is key) ks) as [|k l] eqn:E; [done|].
    assert (Hin : k ∈ filter (local_is key) ks) by (rewrite E; left).
    apply list_elem_of_filter in Hin as [Hl Hin].
    apply Exists_exists. eauto.
  - intros (k & Hin & Hl)%Exists_exists Hnil.
    assert (Hk' : k ∈ filter (local_is key) ks)
      by (apply list_elem_of_filter; done).
    rewrite Hnil in Hk'. by apply not_elem_of_nil in Hk'.
Qed.

(** ** Networks and datacenters *)

Lemma find_in_Ok x local y :
  find_in x local = Ok y <-> exists el, x = Some el /\ y = find el local.
Proof.
  destruct x as [el|]; simpl; split.
  - intros [= <-]. eauto.
  - by intros (el' & [= <-] & ->).
  - discriminate.
  - intros (? & [=] & _).
Qed.

Lemma str_add_Ok a b s :
  str_add a b = Ok s <-> exists t, b = Some t /\ s = a +:+ t.
Proof.
  destruct b as [t|]; simpl; split.
  - intros [= <-]. eauto.
  - by intros (t' & [= <-] & ->).
  - discriminate.
  - intros (? & [=] & _).
Qed.

Lemma _parse_ip_ranges_loop_Ok net_name rs acc ranges :
  _parse_ip_ranges_loop net_name rs acc = Ok ranges <->
  exists new, ranges = acc ++ new /\ Forall2 range_of rs new.
Proof.
  revert acc. induction rs as [|r rs IH]; intros acc; simpl.
  - split.
    + intros [= <-]. exists []. by rewrite app_nil_r.
    + intros (new & -> & H). inversion H; subst. by rewrite app_nil_r.
  - split.
    + destruct (text_of (find r "StartAddress")) as [first|] eqn:E1;
        [|discriminate]. simpl.
      destruct (text_of (find r "EndAddress")) as [last|] eqn:E2;
        [|discriminate]. simpl.
      destruct (str_add _ first) as [s1|] eqn:E3; [|discriminate]. simpl.
      destruct (str_add _ last) as [s2|] eqn:E4; [|discriminate]. simpl.
      intros H. apply IH in H as (new & -> & H).
      apply text_of_Ok in E1 as (s & Hs & ->).
      apply text_of_Ok in E2 as (e & He & ->).
      apply str_add_Ok in E3 as (t1 & Ht1 & _).
      apply str_add_Ok in E4 as (t2 & Ht2 & _).
      exists (IpRange.mk (text s) (text e) :: new).
      split; [by rewrite <- app_assoc|]. constructor; [|done].
      exists s, e. simpl. rewrite Ht1, Ht2. eauto 10.
    + intros (new & -> & H).
      inversion H as [|? ipr ? new' Hr Hnew]; subst.
      destruct Hr as (s & e & Hs & He & Hf & Hl & [a Ha] & [b Hb]).
      rewrite Hs, He. simpl. rewrite Hf, Hl, Ha, Hb. simpl.
      apply IH. exists new'. split; [|done].
      rewrite <- app_assoc. simpl. destruct ipr; simpl in *. congruence.
Qed.

(** X9. When [_parse_org_nets] returns a network, the element has the
    chain [Configuration], [IpScope], [IpRanges]; the network carries the
    [name] attribute and the texts of [Gateway], [Netmask] and
    [DnsSuffix]; and its ranges are those of the [IpRange] children, one
    per child and in document order, each with both addresses present:
    a range with an empty address makes the decoder fail, because the
    label that is built from it cannot be.  [ip_ranges] then returns the
    same [IpRange] children. *)
Theorem parse_org_nets_result (el : Element) (net : OrgNet.t) :
  _parse_org_nets el = Ok net ->
  exists cfg scope gw nm dns box,
    find el "Configuration" = Some cfg /\ find cfg "IpScope" = Some scope /\
    find scope "Gateway" = Some gw /\ find scope "Netmask" = Some nm /\
    find scope "DnsSuffix" = Some dns /\ find scope "IpRanges" = Some box /\
    attrib el !! "name" = Some (OrgNet.name net) /\
    OrgNet.gateway net = text gw /\ OrgNet.netmask net = text nm /\
    OrgNet.dns net = text dns /\
    Forall2 range_of (findall box "IpRange") (OrgNet.ranges net) /\
    Forall (fun ipr => is_Some (IpRange.first ipr) /\ is_Some (IpRange.last ipr))
      (OrgNet.ranges net) /\
    ip_ranges el = Ok (findall box "IpRange").
Proof.
  unfold _parse_org_nets.
  destruct (find_in (find el "Configuration") "IpScope") as [ipscope|] eqn:E1;
    [|discriminate]. simpl.
  apply find_in_Ok in E1 as (cfg & Hcfg & ->).
  destruct (find cfg "IpScope") as [scope|] eqn:Hscope; [|discriminate]. simpl.
  destruct (find scope "Gateway") as [gw|] eqn:Hgw; [|discriminate]. simpl.
  destruct (find scope "Netmask") as [nm|] eqn:Hnm; [|discriminate]. simpl.
  destruct (find scope "DnsSuffix") as [dns|] eqn:Hdns; [|discriminate]. simpl.
  destruct (attrib_getitem el "name") as [name|] eqn:Hname; [|discriminate].
  simpl. apply attrib_getitem_Ok in Hname.
  destruct (find scope "IpRanges") as [box|] eqn:Hbox; [|discriminate]. simpl.
  destruct (_parse_ip_ranges_loop _ _ _) as [ranges|] eqn:Hr; [|discriminate].
  simpl. intros [= <-].
  apply _parse_ip_ranges_loop_Ok in Hr as (new & -> & Hr). simpl in *.
  exists cfg, scope, gw, nm, dns, box. repeat (split; [done|]). split.
  - clear -Hr. induction Hr as [|r ipr rs new Hri _ IH]; constructor; [|done].
    destruct Hri as (?&?&_&_&_&_&?&?). done.
  - unfold ip_ranges. rewrite Hcfg. simpl. rewrite Hscope. simpl.
    by rewrite Hbox.
Qed.

Lemma compute_loop_storage outer ks c inner :
  c !! outer = Some inner ->
  compute_loop outer ks c =
  match storage_loop ks inner with
  | Ok m => Ok (<[outer := m]> c)
  | Raise e => Raise e
  end.
Proof.
  revert c inner. induction ks as [|k ks IH]; intros c inner Hc; simpl.
  - by rewrite insert_id.
  - destruct (local_name k) as [n|e]; [|done]. simpl.
    unfold nested_setitem. rewrite Hc. simpl.
    rewrite (IH _ (<[n := text k]> inner)) by apply lookup_insert_eq.
    destruct (storage_loop ks _); [|done]. by rewrite insert_insert_eq.
Qed.

(** X10. When [_parse_org_vdcs] returns a datacenter, the element has the
    attributes [type], [href], [name] and [id], the children
    [StorageCapacity], [ComputeCapacity] (with [Cpu] and [Memory] in it)
    and [ResourceEntities]; [storage] is the bag of the children of
    [StorageCapacity]; [compute] has the two keys [cpu] and [memory] and
    no other, with the bags of [Cpu] and of [Memory]; and [links] and
    [entities] are the indices of the element. *)
Theorem parse_org_vdcs_result (el : Element) (v : OrgVdc.t) :
  _parse_org_vdcs el = Ok v ->
  exists sc cc cpu mem s c1 c2 c idx ents,
    find el "StorageCapacity" = Some sc /\
    find el "ComputeCapacity" = Some cc /\
    find cc "Cpu" = Some cpu /\ find cc "Memory" = Some mem /\
    is_Some (find el "ResourceEntities") /\
    attrib el !! "type" = Some (OrgVdc.type v) /\
    attrib el !! "href" = Some (OrgVdc.href v) /\
    attrib el !! "name" = Some (OrgVdc.name v) /\
    attrib el !! "id" = OrgVdc.id v /\ is_Some (OrgVdc.id v) /\
    OrgVdc.storage v = Some s /\
    (forall key, s !! key = bag_value (children sc) key) /\
    OrgVdc.compute v = Some c /\
    c !! "cpu" = Some c1 /\ c !! "memory" = Some c2 /\
    (forall outer, outer <> "cpu" -> outer <> "memory" -> c !! outer = None) /\
    (forall key, c1 !! key = bag_value (children cpu) key) /\
    (forall key, c2 !! key = bag_value (children mem) key) /\
    OrgVdc.links v = LinksIndex idx /\ _parse_links el = Ok idx /\
    OrgVdc.entities v = Some ents /\ _parse_resource_entities el = Ok ents.
Proof.
  unfold _parse_org_vdcs.
  destruct (attrib_getitem el "type") as [t|] eqn:Ht; [|discriminate]. simpl.
  destruct (attrib_getitem el "href") as [h|] eqn:Hh; [|discriminate]. simpl.
  destruct (attrib_getitem el "name") as [n|] eqn:Hn; [|discriminate]. simpl.
  destruct (attrib_getitem el "id") as [i|] eqn:Hi; [|discriminate]. simpl.
  apply attrib_getitem_Ok in Ht, Hh, Hn, Hi.
  destruct (find el "StorageCapacity") as [sc|] eqn:Hsc; [|discriminate].
  simpl.
  destruct (storage_loop (children sc) ∅) as [s|] eqn:Hs; [|discriminate].
  simpl.
  destruct (find el "ComputeCapacity") as [cc|] eqn:Hcc; [|discriminate].
  simpl.
  destruct (find cc "Cpu") as [cpu|] eqn:Hcpu; [|discriminate]. simpl.
  rewrite (compute_loop_storage "cpu" _ _ ∅) by reflexivity.
  destruct (storage_loop (children cpu) ∅) as [c1|] eqn:Hc1; [|discriminate].
  simpl.
  destruct (find cc "Memory") as [mem|] eqn:Hmem; [|discriminate]. simpl.
  rewrite (compute_loop_storage "memory" _ _ ∅) by reflexivity.
  destruct (storage_loop (children mem) ∅) as [c2|] eqn:Hc2; [|discriminate].
  simpl.
  destruct (_parse_links el) as [idx|] eqn:Hidx; [|discriminate]. simpl.
  destruct (_parse_resource_entities el) as [ents|] eqn:Hents; [|discriminate].
  simpl. intros [= <-]. simpl.
  exists sc, cc, cpu, mem, s, c1, c2. eexists. exists idx, ents.
  pose proof storage_loop_bag as Hbag.
  split_and!; try done; try (by apply Hbag); try (by eexists).
  - unfold _parse_resource_entities in Hents.
    destruct (find el "ResourceEntities"); [by eexists|discriminate].
  - intros outer H1 H2. rewrite !lookup_insert_ne by done.
    by apply lookup_singleton_ne.
Qed.

(** ** Construction and login *)

Section Session.

Context {World : Type} (request : World -> Request.t -> World * sent).

Lemma get_and_parse_Ok {A} self url (decode : Element -> result A) w w' x :
  get_and_parse request self url decode w = (w', Ok x) <->
  exists res doc,
    request w (Request.mk "get" url (session_headers self) None)
    = (w', Responded res) /\
    ~ (400 <= Response.status_code res < 600)%Z /\
    Response.content res = Some doc /\ decode doc = Ok x.
Proof.
  unfold get_and_parse, mbind, M_bind, _req, pure.
  destruct (request w _) as [w1 [res|err]]; simpl.
  - unfold _custom_raise_for_status, raise_for_status.
    destruct ((400 <=? _)%Z && _)%bool eqn:Es; simpl.
    + split; [discriminate|]. intros (res' & doc & [= _ <-] & Hs & _).
      apply andb_true_iff in Es. lia.
    + assert (Hs : ~ (400 <= Response.status_code res < 600)%Z).
      { apply andb_false_iff in Es. lia. }
      destruct (Response.content res) as [doc|] eqn:Ec; simpl.
      * split.
        -- intros [= <- Hd]. by exists res, doc.
        -- intros (res' & doc' & [= <- <-] & _ & Hc & Hd).
           rewrite Ec in Hc. injection Hc as <-. by rewrite Hd.
      * split; [discriminate|].
        intros (res' & doc' & [= _ <-] & _ & Hc & _). congruence.
  - split; [discriminate|]. intros (res' & doc & [=] & _).
Qed.

(** X12. [__init__] takes the API root from its argument and, only when
    there is none, from [VCLOUD_API_ROOT]: with an argument the variable
    plays no part, and without one it does what it does with the value of
    the variable as argument.  So when the probe of [/session] under that
    root answers with a status from 400 to 599, the client is built with
    that root, the token of the environment and no link index.  With
    neither argument nor variable it raises [ClientError] before anything
    is sent. *)
Theorem init_root_precedence (env : gmap string string) (w : World) :
  (forall r, __init__ request env (Some r) w
             = __init__ request (delete "VCLOUD_API_ROOT" env) (Some r) w) /\
  (forall r,
     env !! "VCLOUD_API_ROOT" = Some r ->
     __init__ request env None w = __init__ request env (Some r) w) /\
  (forall r w1 res,
     request w (Request.mk "get" (r +:+ "/session")
                  (<[VCLOUD_AUTH_HEADER := env !! "VCLOUD_AUTH_TOKEN"]>
                     {[ "accept" := Some VCLOUD_MIME ]}) None)
     = (w1, Responded res) ->
     (400 <= Response.status_code res < 600)%Z ->
     __init__ request env (Some r) w
     = (w1, Ok (mkClient (<[VCLOUD_AUTH_HEADER := env !! "VCLOUD_AUTH_TOKEN"]>
                            {[ "accept" := Some VCLOUD_MIME ]})
                  (env !! "VCLOUD_AUTH_TOKEN") r None))) /\
  (forall arg w' self,
     __init__ request env arg w = (w', Ok self) ->
     root self = match arg with
                 | Some r => r
                 | None => default "" (env !! "VCLOUD_API_ROOT")
                 end /\
     (arg = None -> is_Some (env !! "VCLOUD_API_ROOT"))) /\
  (env !! "VCLOUD_API_ROOT" = None ->
   exists msg, __init__ request env None w = (w, Raise (ClientError msg))).
Proof.
  split; [|split; [|split; [|split]]].
  - intros r. unfold __init__, envget.
    change (envkey "auth_token") with "VCLOUD_AUTH_TOKEN".
    by rewrite lookup_delete_ne.
  - intros r Hr. unfold __init__, envget.
    change (envkey "api_root") with "VCLOUD_API_ROOT". by rewrite Hr.
  - intros r w1 res Hp Hs. unfold __init__.
    unfold mbind at 1, M_bind, pure. unfold mbind at 1, M_bind.
    unfold logged_in, mbind at 1, M_bind, _req, _url, envget. simpl.
    change (envkey "auth_token") with "VCLOUD_AUTH_TOKEN".
    rewrite Hp. simpl. unfold ok, raise_for_status.
    replace (_ && _)%bool with true; [done|].
    symmetry. apply andb_true_iff. lia.
  - intros arg w' self. unfold __init__, envget.
    change (envkey "api_root") with "VCLOUD_API_ROOT".
    unfold mbind at 1, M_bind, pure.
    destruct arg as [r|]; [|destruct (env !! "VCLOUD_API_ROOT") as [r|]];
      [| |discriminate].
    all: unfold mbind at 1, M_bind;
      destruct (logged_in _ _ w) as [w1 [[]|e]]; [| |discriminate];
      [unfold mbind, M_bind;
       destruct (_fetch_initial_links _ _ w1) as [w2 [links|e]];
       [|discriminate]|];
      intros [= _ <-]; simpl; eauto.
    all: split; [done|]; discriminate.
  - intros H. unfold __init__, envget.
    change (envkey "api_root") with "VCLOUD_API_ROOT".
    rewrite H. by eexists.
Qed.

(** X13. What [__init__] leaves in [_links].  The client is built with
    no index when the probe of [/session] answers with a status from 400
    to 599, and one request has been sent.  It is built with an index
    when the probe answers with another status and a second GET of
    [/session] answers with a status outside 400 to 599 and a document
    whose links decode: the index is that of the second document. *)
Theorem init_links (env : gmap string string) (arg : option string)
  (w w' : World) (self : VCloudAPIClient) :
  __init__ request env arg w = (w', Ok self) ->
  let probe :=
    Request.mk "get" (root self +:+ "/session") (session_headers self) None in
  session_headers self
  = <[VCLOUD_AUTH_HEADER := env !! "VCLOUD_AUTH_TOKEN"]>
      {[ "accept" := Some VCLOUD_MIME ]} /\
  exists res,
    (request w probe).2 = Responded res /\
    match _links self with
    | None =>
        (400 <= Response.status_code res < 600)%Z /\ w' = (request w probe).1
    | Some idx =>
        ~ (400 <= Response.status_code res < 600)%Z /\
        exists res2 doc,
          request (request w probe).1 probe = (w', Responded res2) /\
          ~ (400 <= Response.status_code res2 < 600)%Z /\
          Response.content res2 = Some doc /\ _parse_links doc = Ok idx
    end.
Proof.
  unfold __init__. unfold mbind at 1, M_bind, pure.
  destruct (match arg with Some r => _ | None => _ end) as [r|e];
    [|discriminate].
  unfold mbind at 1, M_bind.
  unfold logged_in at 1, mbind at 1, M_bind, _req, _url. simpl.
  destruct (request w _) as [w1 [res|err]] eqn:Ep; [|discriminate]. simpl.
  unfold ok, raise_for_status.
  destruct ((400 <=? _)%Z && _)%bool eqn:Es; simpl.
  - intros [= <- <-]. simpl. split; [done|]. rewrite Ep. exists res.
    split; [done|]. apply andb_true_iff in Es. split; [lia|done].
  - unfold mbind, M_bind.
    destruct (_fetch_initial_links _ _ w1) as [w2 [links|e]] eqn:Ef;
      [|discriminate].
    intros [= <- <-]. simpl. split; [done|]. rewrite Ep. exists res.
    split; [done|]. split; [apply andb_false_iff in Es; lia|].
    unfold _fetch_initial_links in Ef.
    apply get_and_parse_Ok in Ef as (res2 & doc & Hr & Hs & Hc & Hd).
    by exists res2, doc.
Qed.

(** X14. [logged_in] never raises [APIError]: it answers [True] for a
    response whose status is outside 400 to 599, [False] for one inside,
    and lets only an exception of the transport through. *)
Theorem logged_in_outcomes (self : VCloudAPIClient) (w : World) :
  let probe :=
    Request.mk "get" (root self +:+ "/session") (session_headers self) None in
  (logged_in request self w).1 = (request w probe).1 /\
  (forall b,
     (logged_in request self w).2 = Ok b <->
     exists res,
       (request w probe).2 = Responded res /\
       b = negb (bool_decide (400 <= Response.status_code res < 600)%Z)) /\
  (forall e,
     (logged_in request self w).2 = Raise e <->
     exists err, (request w probe).2 = Failed err /\ e = Requests err).
Proof.
  unfold logged_in, mbind, M_bind, _req, _url. simpl.
  destruct (request w _) as [w1 [res|err]]; simpl.
  - split; [done|]. split.
    + intros b. unfold mret, M_ret, ok, raise_for_status. simpl.
      assert (Hb : ((400 <=? Response.status_code res)%Z
                    && (Response.status_code res <? 600)%Z)%bool
                   = bool_decide (400 <= Response.status_code res < 600)%Z).
      { case_bool_decide as Hs.
        - apply andb_true_iff. lia.
        - apply andb_false_iff. lia. }
      rewrite Hb. split.
      * intros [= <-]. exists res. split; [done|]. by case_bool_decide.
      * intros (res' & [= <-] & ->). by case_bool_decide.
    + intros e. split; [discriminate|]. intros (err & [=] & _).
  - split; [done|]. split.
    + intros b. split; [discriminate|]. intros (res & [=] & _).
    + intros e. split.
      * intros [= <-]. by exists err.
      * by intros (err' & [= <-] & ->).
Qed.



(** ** Accessors that look a type up *)

(** X16. When [_lookup] of their type fails, [org_list] and [org] (resp.
    [ext_net_list] and [ext_net]) fail with the same exception and send
    nothing.  In particular on a client without link index, as
    [__init__] leaves it when nobody is logged in, they raise
    [TypeError]. *)
Theorem accessors_fail_before_sending (self : VCloudAPIClient) (w : World) :
  (forall e,
     _lookup self "vcloud.orgList" = Raise e ->
     org_list request self w = (w, Raise e) /\
     forall name, org request self name w = (w, Raise e)) /\
  (forall e,
     _lookup self "admin.vcloud" = Raise e ->
     ext_net_list request self w = (w, Raise e) /\
     forall name, ext_net request self name w = (w, Raise e)) /\
  (_links self = None ->
   forall typ,
     _lookup self typ
     = Raise (TypeError "argument of type 'NoneType' is not iterable")).
Proof.
  split; [|split].
  - intros e H.
    assert (Hl : org_list request self w = (w, Raise e)).
    { unfold org_list, mbind, M_bind, pure. by rewrite H. }
    split; [done|]. intros name. unfold org. unfold mbind at 1, M_bind.
    by rewrite Hl.
  - intros e H.
    assert (Hl : ext_net_list request self w = (w, Raise e)).
    { unfold ext_net_list, mbind, M_bind, pure. by rewrite H. }
    split; [done|]. intros name. unfold ext_net. unfold mbind at 1, M_bind.
    by rewrite Hl.
  - intros H typ. unfold _lookup. by rewrite H.
Qed.

(** X17. [ext_net name] on a list that has no network of that name fails
    like [org]: with the [AttributeError] of reading [href] from [None],
    after the one GET of the list.  When the list has the name, [org] and
    [ext_net] continue with the GET of the [href] of the first record of
    that name, and return what the full decoder makes of the answer. *)
Theorem by_name_accessors (self : VCloudAPIClient) (name : string)
  (w w1 : World) :
  (forall enl,
     ext_net_list request self w = (w1, Ok enl) ->
     ExtNetList.ext_net_by_name enl name = None ->
     ext_net request self name w
     = (w1, Raise (AttributeError "'NoneType' object has no attribute 'href'"))) /\
  (forall enl en,
     ext_net_list request self w = (w1, Ok enl) ->
     ExtNetList.ext_net_by_name enl name = Some en ->
     ext_net request self name w
     = get_and_parse request self (ExtNet.href en) _parse_ext_net w1) /\
  (forall ol o,
     org_list request self w = (w1, Ok ol) ->
     OrgList.org_by_name ol name = Some o ->
     org request self name w
     = get_and_parse request self (Org.href o) _parse_org w1).
Proof.
  split; [|split].
  - intros enl Hl Hn. unfold ext_net. unfold mbind at 1, M_bind.
    rewrite Hl. unfold mbind at 1, M_bind, pure. by rewrite Hn.
  - intros enl en Hl Hn. unfold ext_net. unfold mbind at 1, M_bind.
    rewrite Hl. unfold mbind at 1, M_bind, pure. by rewrite Hn.
  - intros ol o Hl Hn. unfold org. unfold mbind at 1, M_bind.
    rewrite Hl. unfold mbind at 1, M_bind, pure. by rewrite Hn.
Qed.

(** ** Accessors that follow the links of an org *)

Lemma links_loop_Raise {A} (decode : Element -> result A) self ls acc w w' e :
  links_loop request self decode ls acc w = (w', Raise e) <->
  exists before l after xs w1,
    ls = before ++ l :: after /\
    fetched request decode self w before w1 xs /\
    get_and_parse request self (Link.href l) decode w1 = (w', Raise e).
Proof.
  revert acc w. induction ls as [|l ls IH]; intros acc w; simpl.
  - split; [discriminate|]. intros (before & ? & ? & ? & ? & E & _).
    destruct before; discriminate.
  - unfold mbind, M_bind.
    destruct (get_and_parse request self (Link.href l) decode w)
      as [w1 [x|e']] eqn:E.
    + rewrite IH. split.
      * intros (before & l' & after & xs & w2 & -> & Hf & Hg).
        exists (l :: before), l', after, (x :: xs), w2.
        split; [done|]. split; [by econstructor|done].
      * intros (before & l' & after & xs & w2 & Hls & Hf & Hg).
        destruct before as [|b before]; simpl in Hls.
        -- injection Hls as <- <-. inversion Hf; subst. congruence.
        -- injection Hls as <- ->.
           inversion Hf as [|? w1' ? ? ? x' xs' Hx Hxs]; subst.
           rewrite E in Hx. injection Hx as <- <-.
           by exists before, l', after, xs', w2.
    + split.
      * intros [= <- <-]. exists [], l, ls, [], w.
        split; [done|]. split; [constructor|done].
      * intros (before & l' & after & xs & w2 & Hls & Hf & Hg).
        destruct before as [|b before]; simpl in Hls.
        -- injection Hls as <- <-. inversion Hf; subst. congruence.
        -- injection Hls as <- ->. inversion Hf; subst. congruence.
Qed.

(** X18. [org_nets] and [org_vdcs] stop at the first link whose GET,
    parse or decode fails: they raise its exception, return no record
    of the links before it, and send nothing for the links after it. *)
Theorem org_nets_vdcs_stop_at_first_failure (self : VCloudAPIClient)
  (org : Org.t) (idx : gmap string (list Link.t)) (w w1 w2 : World)
  (before after : list Link.t) (l : Link.t) (e : exn) :
  Org.links org = LinksIndex idx ->
  (forall nets,
     stored idx "application/vnd.vmware.vcloud.orgNetwork+xml"
     = before ++ l :: after ->
     fetched request _parse_org_nets self w before w1 nets ->
     get_and_parse request self (Link.href l) _parse_org_nets w1
     = (w2, Raise e) ->
     exists org', org_nets request self org w = (w2, org', Raise e)) /\
  (forall vdcs,
     stored idx "application/vnd.vmware.vcloud.vdc+xml"
     = before ++ l :: after ->
     fetched request _parse_org_vdcs self w before w1 vdcs ->
     get_and_parse request self (Link.href l) _parse_org_vdcs w1
     = (w2, Raise e) ->
     exists org', org_vdcs request self org w = (w2, org', Raise e)).
Proof.
  intros E. split.
  - intros nets Hs Hf Hg. unfold org_nets.
    pose proof (org_links_getitem_stored org
      "application/vnd.vmware.vcloud.orgNetwork+xml" idx E) as Hi.
    destruct (org_links_getitem org _) as [org1 r]. simpl in Hi. subst r.
    assert (Hl : links_loop request self _parse_org_nets
                   (stored idx "application/vnd.vmware.vcloud.orgNetwork+xml")
                   [] w = (w2, Raise e)).
    { apply links_loop_Raise. by exists before, l, after, nets, w1. }
    rewrite Hl. eauto.
  - intros vdcs Hs Hf Hg. unfold org_vdcs.
    pose proof (org_links_getitem_stored org
      "application/vnd.vmware.vcloud.vdc+xml" idx E) as Hi.
    destruct (org_links_getitem org _) as [org1 r]. simpl in Hi. subst r.
    assert (Hl : links_loop request self _parse_org_vdcs
                   (stored idx "application/vnd.vmware.vcloud.vdc+xml")
                   [] w = (w2, Raise e)).
    { apply links_loop_Raise. by exists before, l, after, vdcs, w1. }
    rewrite Hl. eauto.
Qed.

Lemma fetched_decoded {A} (decode : Element -> result A) self w ls w' xs :
  fetched request decode self w ls w' xs ->
  Forall (fun x => exists doc, decode doc = Ok x) xs.
Proof.
  induction 1 as [|w w1 w2 l ls x xs Hx _ IH]; constructor; [|done].
  apply get_and_parse_Ok in Hx as (res & doc & _ & _ & _ & Hd). eauto.
Qed.

Lemma _parse_org_vdcs_entities doc v :
  _parse_org_vdcs doc = Ok v -> is_Some (OrgVdc.entities v).
Proof.
  unfold _parse_org_vdcs.
  repeat (match goal with
          | |- context [mbind _ ?m] =>
              let E := fresh in destruct m eqn:E; simpl; [|discriminate]
          end).
  intros [= <-]. by eexists.
Qed.

Lemma org_vapps_loop_flat ovdcs acc :
  Forall (fun v => is_Some (OrgVdc.entities v)) ovdcs ->
  org_vapps_loop ovdcs acc
  = Ok (acc ++ flat_map
          (fun v => stored (default ∅ (OrgVdc.entities v))
                      "application/vnd.vmware.vcloud.vApp+xml") ovdcs).
Proof.
  intros H. revert acc. induction H as [|v vs [d Hd] _ IH]; intros acc; simpl.
  - by rewrite app_nil_r.
  - unfold ovdc_entities_getitem. rewrite Hd. simpl. rewrite IH.
    rewrite <- app_assoc. do 3 f_equal.
    unfold defaultdict_getitem, stored. by destruct (d !! _).
Qed.

(** X19. [org_vapps] returns, for the datacenters that [org_vdcs]
    returns, the vApp entities of the first, then those of the second,
    and so on, each in the order of its entity index, and nothing for a
    datacenter without vApp; it sends what [org_vdcs] sends and fails
    when [org_vdcs] fails, with the same exception. *)
Theorem org_vapps_concatenates (self : VCloudAPIClient) (org : Org.t)
  (w w' : World) (org' : Org.t) :
  (forall ovdcs,
     org_vdcs request self org w = (w', org', Ok ovdcs) ->
     org_vapps request self org w
     = (w', org',
        Ok (flat_map
              (fun v => stored (default ∅ (OrgVdc.entities v))
                          "application/vnd.vmware.vcloud.vApp+xml") ovdcs))) /\
  (forall e,
     org_vdcs request self org w = (w', org', Raise e) ->
     org_vapps request self org w = (w', org', Raise e)).
Proof.
  split.
  - intros ovdcs H. unfold org_vapps. rewrite H. do 2 f_equal.
    rewrite org_vapps_loop_flat; [done|].
    unfold org_vdcs in H.
    destruct (org_links_getitem org _) as [org1 [ls|e]]; [|discriminate].
    destruct (links_loop _ _ _ _ _ w) as [w2 r] eqn:El.
    injection H as -> _ ->.
    apply links_loop_Ok in El as (ys & -> & Hf).
    apply fetched_decoded in Hf. simpl.
    eapply Forall_impl; [exact Hf|].
    intros v [doc Hd]. by eapply _parse_org_vdcs_entities.
  - intros e H. unfold org_vapps. by rewrite H.
Qed.

End Session.

(** ** The further properties at concrete documents and servers *)

(** [x ∉ [a; b; ...]] for literals. *)
Ltac not_listed :=
  let H := fresh in
  intros H;
  repeat (apply elem_of_cons in H as [H|H]; [discriminate H|]);
  by apply elem_of_nil in H.

(** Every attribute of a concrete element is a parameter. *)
Ltac all_listed := apply (proj1 (kwargs_ok_spec _ _)); vm_compute; reflexivity.

(** X1 on a link of [session_doc] and on a [Link] with an [id]. *)
Lemma parse_link_accepts_witness :
  _parse_link
    (Scenario.link_el Scenario.orgList_type "https://vc/api/org/" "down")
  = Ok (Link.mk Scenario.orgList_type "https://vc/api/org/" "down" None) /\
  forall l, _parse_link Cases.link_with_id <> Ok l.
Proof.
  split.
  - apply (proj1 (parse_link_accepts _)). split; [all_listed|by vm_compute].
  - intros l H. apply (proj1 (parse_link_accepts _)) in H as [H _].
    assert (Hid : is_Some (attrib Cases.link_with_id !! "id"))
      by (vm_compute; eauto).
    revert H Hid. intros H Hid. apply H in Hid. revert Hid. not_listed.
Defined.

(** X2 on org summaries without [id], with [id] and with an attribute
    that is no field. *)
Lemma summary_decoders_accept_witness :
  _parse_org_short (Scenario.org_short_el "Acme" "https://vc/api/org/1")
  = Ok (Org.mk Scenario.org_type "https://vc/api/org/1" "Acme" None None None
          LinksNone) /\
  _parse_org_short Cases.org_with_id
  = Ok (Org.mk Scenario.org_type "https://vc/api/org/1" "Acme"
          (Some "urn:vcloud:org:1") None None LinksNone) /\
  exists msg, _parse_org_short Cases.org_with_key = Raise (TypeError msg).
Proof.
  split; [|split].
  - apply (proj1 (summary_decoders_accept _)).
    split; [all_listed|by vm_compute].
  - apply (proj1 (summary_decoders_accept _)).
    split; [all_listed|by vm_compute].
  - apply (proj1 (proj2 (proj2 (summary_decoders_accept Cases.org_with_key)))
             "operationKey").
    + vm_compute. eauto.
    + not_listed.
Defined.

(** X3 on [broken_session_doc], two of whose links do not decode, and on
    [acme_doc], which has none. *)
Lemma parse_links_all_or_nothing_witness :
  (exists e,
     _parse_links Cases.broken_session_doc = Raise e /\
     class_name e = "TypeError") /\
  ~ is_Ok (_parse_links Cases.broken_session_doc) /\
  _parse_links Scenario.acme_doc = Ok ∅.
Proof.
  destruct (parse_links_all_or_nothing Cases.broken_session_doc)
    as (Hok & _ & Hraise & _).
  assert (Hin : Cases.link_with_id ∈ findall Cases.broken_session_doc "Link")
    by (vm_compute; right; left).
  assert (Hbad : ~ is_Ok (_parse_link Cases.link_with_id)).
  { intros [l Hl]. vm_compute in Hl. discriminate. }
  split; [|split].
  - apply Hraise. apply Exists_exists. eauto.
  - intros H. apply Hok in H. rewrite Forall_forall in H. by apply Hbad, H.
  - apply (proj2 (proj2 (proj2 (parse_links_all_or_nothing Scenario.acme_doc)))).
    vm_compute. reflexivity.
Defined.

(** X4 on [client], whose index is that of [session_doc]. *)
Lemma lookup_on_parsed_index_witness :
  (forall k, Scenario.session_links !! k <> Some []) /\
  (forall typ,
     (is_Some (Scenario.session_links !! full_typ typ) /\
      exists url, _lookup Scenario.client typ = Ok url) \/
     (Scenario.session_links !! full_typ typ = None /\
      _lookup Scenario.client typ
      = Raise (APIError
                 (Message ("Don't know anything about type '" +:+ typ +:+ "'"))))).
Proof.
  apply (lookup_on_parsed_index Scenario.client Scenario.session_doc).
  - vm_compute. reflexivity.
  - reflexivity.
Defined.

(** X5 on [orglist_doc]: the list is decoded, and [Acme] is the first
    child, not the third. *)
Lemma parse_org_list_then_by_name_witness :
  _parse_org_list Scenario.orglist_doc = Ok Scenario.parsed_orglist /\
  OrgList.org_by_name Scenario.parsed_orglist "Acme"
  = Some (Org.mk Scenario.org_type "https://vc/api/org/1" "Acme" None None
            None LinksNone).
Proof.
  destruct (parse_org_list_then_by_name Scenario.orglist_doc) as [Hlist Hname].
  assert (H : _parse_org_list Scenario.orglist_doc = Ok Scenario.parsed_orglist).
  { apply Hlist.
    change (Forall2 (fun c o => _parse_org_short c = Ok o)
              [ Scenario.org_short_el "Acme" "https://vc/api/org/1";
                Scenario.org_short_el "acme" "https://vc/api/org/2";
                Scenario.org_short_el "Acme" "https://vc/api/org/3" ]
              (OrgList.orgs Scenario.parsed_orglist)).
    repeat (constructor; [vm_compute; reflexivity|]). constructor. }
  split; [exact H|].
  apply (Hname _ H).
  exists [], (Scenario.org_short_el "Acme" "https://vc/api/org/1").
  eexists. split; [vm_compute; reflexivity|].
  split; [vm_compute; reflexivity|]. split; [vm_compute; reflexivity|].
  constructor.
Defined.

(** X6 on [admin_doc], whose stray [Network] is not listed, and on a
    document without [Networks]. *)
Lemma parse_ext_net_list_reads_Networks_witness :
  _parse_ext_net_list Cases.admin_doc = Ok Cases.parsed_extnets /\
  _parse_ext_net_list Scenario.session_doc
  = Raise (AttributeError "'NoneType' object has no attribute 'findall'").
Proof.
  split.
  - apply (proj2 (parse_ext_net_list_reads_Networks Cases.admin_doc)).
    exists (Elem (qname "Networks") ∅ None
              [ Cases.network_el "uplink" "https://vc/api/admin/network/7";
                Cases.network_el "backup" "https://vc/api/admin/network/8" ]).
    split; [vm_compute; reflexivity|].
    change (Forall2 (fun c en => _parse_ext_net_short c = Ok en)
              [ Cases.network_el "uplink" "https://vc/api/admin/network/7";
                Cases.network_el "backup" "https://vc/api/admin/network/8" ]
              (ExtNetList.ext_nets Cases.parsed_extnets)).
    repeat (constructor; [vm_compute; reflexivity|]). constructor.
  - apply (proj1 (parse_ext_net_list_reads_Networks Scenario.session_doc)).
    vm_compute. reflexivity.
Defined.

(** X7 on a tag of the vCloud namespace and on a bare tag. *)
Lemma local_name_of_qualified_tag_witness :
  local_name (Elem (qname "Allocated") ∅ (Some "100") []) = Ok "Allocated" /\
  local_name (Elem "Allocated" ∅ (Some "100") [])
  = Raise (IndexError "list index out of range").
Proof.
  destruct local_name_of_qualified_tag as (_ & Hq & Hno & _).
  split.
  - apply Hq. reflexivity.
  - apply Hno. reflexivity.
Defined.

(** X8 on [capacity_children]: the second [Allocated] wins and the empty
    [Overhead] is kept with [None]. *)
Lemma capacity_bag_last_wins_witness :
  Cases.capacity_bag !! "Allocated" = Some (Some "120") /\
  Cases.capacity_bag !! "Overhead" = Some None /\
  (is_Some (Cases.capacity_bag !! "Limit") <->
   Exists (local_is "Limit") Cases.capacity_children).
Proof.
  destruct (proj2 (capacity_bag_last_wins Cases.capacity_children)
              Cases.capacity_bag) as [Hk Hdom].
  - vm_compute. reflexivity.
  - split; [|split].
    + rewrite Hk. vm_compute. reflexivity.
    + rewrite Hk. vm_compute. reflexivity.
    + apply Hdom.
Defined.

(** X9 on [net_doc]. *)
Lemma parse_org_nets_result_witness :
  exists cfg scope gw nm dns box,
    find (Scenario.net_doc "front") "Configuration" = Some cfg /\
    find cfg "IpScope" = Some scope /\
    find scope "Gateway" = Some gw /\ find scope "Netmask" = Some nm /\
    find scope "DnsSuffix" = Some dns /\ find scope "IpRanges" = Some box /\
    attrib (Scenario.net_doc "front") !! "name"
    = Some (OrgNet.name (Scenario.parsed_net "front")) /\
    OrgNet.gateway (Scenario.parsed_net "front") = text gw /\
    OrgNet.netmask (Scenario.parsed_net "front") = text nm /\
    OrgNet.dns (Scenario.parsed_net "front") = text dns /\
    Forall2 range_of (findall box "IpRange")
      (OrgNet.ranges (Scenario.parsed_net "front")) /\
    Forall (fun ipr => is_Some (IpRange.first ipr) /\ is_Some (IpRange.last ipr))
      (OrgNet.ranges (Scenario.parsed_net "front")) /\
    ip_ranges (Scenario.net_doc "front") = Ok (findall box "IpRange").
Proof.
  apply (parse_org_nets_result (Scenario.net_doc "front")).
  vm_compute. reflexivity.
Defined.

(** X10 on [vdc_doc]. *)
Lemma parse_org_vdcs_result_witness :
  _parse_org_vdcs Scenario.vdc_doc = Ok Cases.parsed_vdc /\
  exists sc cc cpu mem s c1 c2 c idx ents,
    find Scenario.vdc_doc "StorageCapacity" = Some sc /\
    find Scenario.vdc_doc "ComputeCapacity" = Some cc /\
    find cc "Cpu" = Some cpu /\ find cc "Memory" = Some mem /\
    is_Some (find Scenario.vdc_doc "ResourceEntities") /\
    attrib Scenario.vdc_doc !! "type" = Some (OrgVdc.type Cases.parsed_vdc) /\
    attrib Scenario.vdc_doc !! "href" = Some (OrgVdc.href Cases.parsed_vdc) /\
    attrib Scenario.vdc_doc !! "name" = Some (OrgVdc.name Cases.parsed_vdc) /\
    attrib Scenario.vdc_doc !! "id" = OrgVdc.id Cases.parsed_vdc /\
    is_Some (OrgVdc.id Cases.parsed_vdc) /\
    OrgVdc.storage Cases.parsed_vdc = Some s /\
    (forall key, s !! key = bag_value (children sc) key) /\
    OrgVdc.compute Cases.parsed_vdc = Some c /\
    c !! "cpu" = Some c1 /\ c !! "memory" = Some c2 /\
    (forall outer, outer <> "cpu" -> outer <> "memory" -> c !! outer = None) /\
    (forall key, c1 !! key = bag_value (children cpu) key) /\
    (forall key, c2 !! key = bag_value (children mem) key) /\
    OrgVdc.links Cases.parsed_vdc = LinksIndex idx /\
    _parse_links Scenario.vdc_doc = Ok idx /\
    OrgVdc.entities Cases.parsed_vdc = Some ents /\
    _parse_resource_entities Scenario.vdc_doc = Ok ents.
Proof.
  assert (H : _parse_org_vdcs Scenario.vdc_doc = Ok Cases.parsed_vdc)
    by (vm_compute; reflexivity).
  split; [exact H|]. exact (parse_org_vdcs_result _ _ H).
Defined.

(** X12 with the root in the environment only, and nowhere. *)
Lemma init_root_precedence_witness :
  __init__ Scenario.unauthorized {[ "VCLOUD_API_ROOT" := "https://vc/api" ]}
    None tt = (tt, Ok Scenario.anonymous_client) /\
  root Scenario.anonymous_client = "https://vc/api" /\
  exists msg,
    __init__ Scenario.unauthorized ∅ None tt = (tt, Raise (ClientError msg)).
Proof.
  destruct (init_root_precedence Scenario.unauthorized
              {[ "VCLOUD_API_ROOT" := "https://vc/api" ]} tt)
    as (_ & Henv & Hbuilt & Hroot & _).
  assert (H : __init__ Scenario.unauthorized
                {[ "VCLOUD_API_ROOT" := "https://vc/api" ]} None tt
              = (tt, Ok Scenario.anonymous_client)).
  { rewrite (Henv "https://vc/api") by reflexivity.
    apply (Hbuilt "https://vc/api" tt (Response.mk 401 ∅ None)).
    - reflexivity.
    - simpl. lia. }
  split; [exact H|]. split.
  - exact (proj1 (Hroot None tt Scenario.anonymous_client H)).
  - apply (proj2 (proj2 (proj2 (proj2
             (init_root_precedence Scenario.unauthorized ∅ tt))))).
    reflexivity.
Defined.

(** X13 on a client built while logged in: two requests have been sent
    and the index is that of [session_doc]. *)
Lemma init_links_witness :
  __init__ (Scenario.server Cases.routes) {[ "VCLOUD_AUTH_TOKEN" := "secret" ]}
    (Some "https://vc/api") []
  = ([Scenario.get "https://vc/api/session";
      Scenario.get "https://vc/api/session"], Ok Scenario.client) /\
  exists res,
    (Scenario.server Cases.routes [] (Scenario.get "https://vc/api/session")).2
    = Responded res /\
    ~ (400 <= Response.status_code res < 600)%Z /\
    exists res2 doc,
      Scenario.server Cases.routes [Scenario.get "https://vc/api/session"]
        (Scenario.get "https://vc/api/session")
      = ([Scenario.get "https://vc/api/session";
          Scenario.get "https://vc/api/session"], Responded res2) /\
      ~ (400 <= Response.status_code res2 < 600)%Z /\
      Response.content res2 = Some doc /\
      _parse_links doc = Ok Scenario.session_links.
Proof.
  assert (H : __init__ (Scenario.server Cases.routes)
                {[ "VCLOUD_AUTH_TOKEN" := "secret" ]} (Some "https://vc/api") []
              = ([Scenario.get "https://vc/api/session";
                  Scenario.get "https://vc/api/session"], Ok Scenario.client))
    by (vm_compute; reflexivity).
  split; [exact H|].
  exact (proj2 (init_links _ _ _ _ _ _ H)).
Defined.

(** X14 on the server that answers 401. *)
Lemma logged_in_outcomes_witness :
  (logged_in Scenario.unauthorized Scenario.anonymous_client tt).2 = Ok false.
Proof.
  apply (proj1 (proj2 (logged_in_outcomes Scenario.unauthorized
                         Scenario.anonymous_client tt))).
  eexists. split; [reflexivity|]. vm_compute. reflexivity.
Defined.


(** X16 on a client that is not logged in and on one whose session
    document had no link. *)
Lemma accessors_fail_before_sending_witness :
  org_list (Scenario.server Scenario.routes) Scenario.anonymous_client []
  = ([], Raise (TypeError "argument of type 'NoneType' is not iterable")) /\
  ext_net (Scenario.server Scenario.routes) Scenario.blind_client "uplink" []
  = ([], Raise (APIError
                  (Message "Don't know anything about type 'admin.vcloud'"))).
Proof.
  split.
  - apply (proj1 (accessors_fail_before_sending (Scenario.server Scenario.routes)
                    Scenario.anonymous_client [])).
    apply (proj2 (proj2 (accessors_fail_before_sending
                           (Scenario.server Scenario.routes)
                           Scenario.anonymous_client []))).
    reflexivity.
  - apply (proj1 (proj2 (accessors_fail_before_sending
                           (Scenario.server Scenario.routes)
                           Scenario.blind_client []))).
    reflexivity.
Defined.

(** X17 on [client] and the server [Cases.routes]. *)
Lemma by_name_accessors_witness :
  ext_net (Scenario.server Cases.routes) Scenario.client "ghost" []
  = ([Scenario.get "https://vc/api/admin/"],
     Raise (AttributeError "'NoneType' object has no attribute 'href'")) /\
  org (Scenario.server Cases.routes) Scenario.client "Acme" []
  = get_and_parse (Scenario.server Cases.routes) Scenario.client
      "https://vc/api/org/1" _parse_org [Scenario.get "https://vc/api/org/"].
Proof.
  split.
  - apply (proj1 (by_name_accessors (Scenario.server Cases.routes)
                    Scenario.client "ghost" [] _) Cases.parsed_extnets).
    + vm_compute. reflexivity.
    + reflexivity.
  - apply (proj2 (proj2 (by_name_accessors (Scenario.server Cases.routes)
                           Scenario.client "Acme" [] _))
             Scenario.parsed_orglist
             (Org.mk Scenario.org_type "https://vc/api/org/1" "Acme" None None
                None LinksNone)).
    + vm_compute. reflexivity.
    + reflexivity.
Defined.

(** X18 on [networked_org] and a server without the second network: the
    first network is fetched and dropped. *)
Lemma org_nets_vdcs_stop_at_first_failure_witness :
  exists org',
    org_nets (Scenario.server Cases.routes_without_back) Scenario.client
      Scenario.networked_org []
    = ([Scenario.get "https://vc/api/network/1";
        Scenario.get "https://vc/api/network/2"], org',
       Raise (Requests ConnectionError)).
Proof.
  apply (proj1 (org_nets_vdcs_stop_at_first_failure
                  (Scenario.server Cases.routes_without_back) Scenario.client
                  Scenario.networked_org
                  {[ Scenario.orgNetwork_type := Scenario.net_links ]}
                  [] [Scenario.get "https://vc/api/network/1"] _
                  [Link.mk Scenario.orgNetwork_type "https://vc/api/network/1"
                     "down" (Some "front")]
                  []
                  (Link.mk Scenario.orgNetwork_type "https://vc/api/network/2"
                     "down" (Some "back"))
                  _ eq_refl)
           [Scenario.parsed_net "front"]).
  - vm_compute. reflexivity.
  - econstructor; [vm_compute; reflexivity|constructor].
  - vm_compute. reflexivity.
Defined.

(** X19 on [vdc_org]: the two vApps of its datacenter, without the media
    entity between them. *)
Lemma org_vapps_concatenates_witness :
  org_vapps (Scenario.server Cases.routes) Scenario.client Cases.vdc_org []
  = ([Scenario.get "https://vc/api/vdc/5"], Cases.vdc_org,
     Ok (flat_map
           (fun v => stored (default ∅ (OrgVdc.entities v))
                       "application/vnd.vmware.vcloud.vApp+xml")
           [Cases.parsed_vdc])).
Proof.
  apply (proj1 (org_vapps_concatenates (Scenario.server Cases.routes)
                  Scenario.client Cases.vdc_org [] _ _)).
  vm_compute. reflexivity.
Defined.
